(** * The turnaround-video poller of [src/services/geminiService.ts]

    A shallow embedding of [generateTurnaroundVideo]: the request sent to
    the video model, the polling loop on the long-running operation, the
    extraction of the video URI, the download, and the [catch] block that
    re-throws.  Calls that leave the function (the provider's SDK, [fetch],
    [setTimeout], [console.error]) are answered by a [Provider] and written
    to a log, so that statements about how often and in which order the
    function suspends and fetches are statements about that log. *)

From Stdlib Require Import String Ascii List ZArith Lia Bool Arith.
From Stdlib Require Import DecimalString.
Import ListNotations.
Open Scope string_scope.

(** ** Values exchanged with the provider *)

(** A thrown JavaScript value, as far as the function looks at it:
    [error.message] may be missing ([None]); [name] tells an [ApiError] or
    a [TypeError] from a plain [Error]. *)
Record JsError : Type := mkJsError {
  name : string;
  message : option string
}.

(** [new Error(msg)]. *)
Definition newError (msg : string) : JsError :=
  {| name := "Error"; message := Some msg |}.

(** The fields of the SDK's operation object that the function reads
    ([done], [response?.generatedVideos?.[0]?.video?.uri]); every one of
    them is optional in the SDK's types.  [error] is the payload of a
    failed job; the function never reads it. *)
Record Video : Type := mkVideo {
  uri : option string
}.

Record GeneratedVideo : Type := mkGeneratedVideo {
  video : option Video
}.

Record GenerateVideosResponse : Type := mkResponse {
  generatedVideos : option (list GeneratedVideo)
}.

Record Operation : Type := mkOperation {
  done : option bool;
  error : option string;
  response : option GenerateVideosResponse
}.

(** The argument of [ai.models.generateVideos]. *)
Record VideoRequest : Type := mkVideoRequest {
  model : string;
  prompt : string;
  imageBytes : option string;
  mimeType : string;
  numberOfVideos : nat;
  resolution : string;
  aspectRatio : string
}.

Definition Blob : Type := string.

(** What [await fetch(url)] resolves to: [ok], [statusText] and the reply
    of [response.blob()]. *)
Record FetchResponse : Type := mkFetchResponse {
  ok : bool;
  statusText : string;
  blob : JsError + Blob
}.

(** The world outside the function.  The reply to a status query may
    depend on the operation passed and on how many status queries were
    made before it (the first one has index 0). *)
Record Provider : Type := mkProvider {
  API_KEY : option string;
  generateVideos : VideoRequest -> JsError + Operation;
  getVideosOperation : nat -> Operation -> JsError + Operation;
  fetch : string -> JsError + FetchResponse;
  createObjectURL : Blob -> string
}.

(** ** Effects *)

Inductive Event : Type :=
| EvGenerateVideos (req : VideoRequest)
| EvSleep (ms : Z)
| EvGetVideosOperation (operation : Operation)
| EvFetch (url : string)
| EvBlob
| EvCreateObjectURL (b : Blob)
| EvConsoleError (e : JsError).

(** [polls] counts the status queries made so far; [log] lists the events
    in the order they happened. *)
Record World : Type := mkWorld {
  polls : nat;
  log : list Event
}.

Definition start : World := {| polls := 0; log := [] |}.

Definition record (ev : Event) (w : World) : World :=
  {| polls := polls w; log := log w ++ [ev] |}.

(** How an [async] function ends: its promise resolves, it rejects, or the
    loop is still running when the fuel is used up. *)
Inductive Outcome (A : Type) : Type :=
| Returned (a : A)
| Thrown (e : JsError)
| Pending.

Arguments Returned {A} a.
Arguments Thrown {A} e.
Arguments Pending {A}.

Definition M (A : Type) : Type := World -> World * Outcome A.

Definition ret {A} (a : A) : M A := fun w => (w, Returned a).

Definition throw {A} (e : JsError) : M A := fun w => (w, Thrown e).

Definition bind {A B} (m : M A) (f : A -> M B) : M B :=
  fun w =>
    match m w with
    | (w', Returned a) => f a w'
    | (w', Thrown e) => (w', Thrown e)
    | (w', Pending) => (w', Pending)
    end.

(** [try { m } catch (error) { handler error }]. *)
Definition tryCatch {A} (m : M A) (handler : JsError -> M A) : M A :=
  fun w =>
    match m w with
    | (w', Thrown e) => handler e w'
    | r => r
    end.

Definition settle {A} (r : JsError + A) : Outcome A :=
  match r with
  | inr a => Returned a
  | inl e => Thrown e
  end.

Declare Scope js_scope.
Delimit Scope js_scope with js.
Notation "x <- m ;; k" := (bind m (fun x => k))
  (at level 61, m at next level, right associativity) : js_scope.
Notation "m ;; k" := (bind m (fun _ => k))
  (at level 61, right associativity) : js_scope.
Open Scope js_scope.

(** ** JavaScript helpers *)

(** A string is truthy when it is defined and not empty. *)
Definition truthy (s : option string) : option string :=
  match s with
  | Some "" => None
  | Some v => Some v
  | None => None
  end.

(** [a || b] on an optional string and a string. *)
Definition orElse (a : option string) (b : string) : string :=
  match truthy a with
  | Some v => v
  | None => b
  end.

(** A template literal prints [undefined] as the word. *)
Definition render (s : option string) : string :=
  match s with
  | Some v => v
  | None => "undefined"
  end.

(** [s.split(sep)] for a one-character separator: never empty. *)
Fixpoint split (sep : ascii) (s : string) : list string :=
  match s with
  | EmptyString => [EmptyString]
  | String c rest =>
      if Ascii.eqb c sep then EmptyString :: split sep rest
      else match split sep rest with
           | h :: t => String c h :: t
           | [] => [String c EmptyString]
           end
  end.

Definition typeErrorSplit : JsError :=
  {| name := "TypeError";
     message := Some "Cannot read properties of undefined (reading 'split')" |}.

(** [!operation.done] is false only for [done === true]. *)
Definition isDone (operation : Operation) : bool :=
  match done operation with
  | Some true => true
  | _ => false
  end.

(** Line 293: [operation.response?.generatedVideos?.[0]?.video?.uri]. *)
Definition videoUriOf (operation : Operation) : option string :=
  match response operation with
  | None => None
  | Some r =>
      match generatedVideos r with
      | None => None
      | Some vs =>
          match nth_error vs 0 with
          | None => None
          | Some gv =>
              match video gv with
              | None => None
              | Some v => uri v
              end
          end
      end
  end.

Definition noVideoUri : JsError := newError "No video URI in response".

(** Lines 293-296: the URI, or the error thrown when [!videoUri]. *)
Definition extractVideoUri (operation : Operation) : JsError + string :=
  match truthy (videoUriOf operation) with
  | Some videoUri => inr videoUri
  | None => inl noVideoUri
  end.

(** Lines 270-272 and the literal of lines 275-285. *)
Definition turntablePrompt : string :=
  "A 360 degree rotating turntable animation of this character in T-Pose. Solid white background. The character stays in the center and rotates smoothly. High quality 3D model reference.".

Definition videoRequest (imageDataUrl : string) : JsError + VideoRequest :=
  let parts := split "," imageDataUrl in
  let base64Data := nth_error parts 1 in
  match nth_error (split ":" (hd EmptyString parts)) 1 with
  | None => inl typeErrorSplit
  | Some afterColon =>
      inr {| model := "veo-3.1-fast-generate-preview";
             prompt := turntablePrompt;
             imageBytes := base64Data;
             mimeType := hd EmptyString (split ";" afterColon);
             numberOfVideos := 1;
             resolution := "720p";
             aspectRatio := "16:9" |}
  end.

(** Line 289: the delay handed to [setTimeout]. *)
Definition pollIntervalMs : Z := 5000.

(** Line 307: what the [catch] block throws. *)
Definition rethrown (e : JsError) : JsError :=
  newError (orElse (message e) "Failed to generate video.").

(** ** The function *)

Section Service.

Variable env : Provider.

Definition emit (ev : Event) : M unit :=
  fun w => (record ev w, Returned tt).

Definition callGenerateVideos (req : VideoRequest) : M Operation :=
  fun w => (record (EvGenerateVideos req) w, settle (generateVideos env req)).

(** [await new Promise(resolve => setTimeout(resolve, ms))]. *)
Definition sleep (ms : Z) : M unit := emit (EvSleep ms).

Definition callGetVideosOperation (operation : Operation) : M Operation :=
  fun w =>
    ({| polls := S (polls w);
        log := log w ++ [EvGetVideosOperation operation] |},
     settle (getVideosOperation env (polls w) operation)).

Definition callFetch (url : string) : M FetchResponse :=
  fun w => (record (EvFetch url) w, settle (fetch env url)).

Definition callBlob (r : FetchResponse) : M Blob :=
  fun w => (record EvBlob w, settle (blob r)).

Definition callCreateObjectURL (b : Blob) : M string :=
  fun w => (record (EvCreateObjectURL b) w, Returned (createObjectURL env b)).

Definition consoleError (e : JsError) : M unit := emit (EvConsoleError e).

(** Lines 288-291.  The condition is tested before the fuel, so [fuel]
    bounds the number of iterations and not the number of tests. *)
Fixpoint generateTurnaroundVideo_loop (fuel : nat) (operation : Operation)
  : M Operation :=
  if isDone operation then ret operation
  else match fuel with
       | O => fun w => (w, Pending)
       | S fuel' =>
           sleep pollIntervalMs ;;
           operation' <- callGetVideosOperation operation ;;
           generateTurnaroundVideo_loop fuel' operation'
       end.

(** Lines 288-296: poll the operation, then take the URI out. *)
Definition afterLoop (fuel : nat) (operation : Operation) : M string :=
  operation' <- generateTurnaroundVideo_loop fuel operation ;;
  match extractVideoUri operation' with
  | inr videoUri => ret videoUri
  | inl e => throw e
  end.

(** Lines 274-296: create the job, poll it, take the URI out. *)
Definition generateTurnaroundVideo_poll (fuel : nat) (req : VideoRequest)
  : M string :=
  operation <- callGenerateVideos req ;;
  afterLoop fuel operation.

(** Line 298: the address the video is downloaded from. *)
Definition downloadUrl (videoUri : string) : string :=
  videoUri ++ "&key=" ++ render (API_KEY env).

(** Lines 298-303. *)
Definition generateTurnaroundVideo_download (videoUri : string) : M string :=
  r <- callFetch (downloadUrl videoUri) ;;
  if ok r then
    b <- callBlob r ;;
    callCreateObjectURL b
  else throw (newError ("Failed to download video: " ++ statusText r)).

(** Lines 268-303, the body of the [try].  Line 268 only builds the SDK
    client from the API key and calls nothing; it is taken to succeed,
    which in a browser needs the key to be set: a statement that is not
    about a run in which the provider was called says so when it relies
    on the key. *)
Definition generateTurnaroundVideo_try (fuel : nat) (imageDataUrl : string)
  : M string :=
  match videoRequest imageDataUrl with
  | inl e => throw e
  | inr req =>
      videoUri <- generateTurnaroundVideo_poll fuel req ;;
      generateTurnaroundVideo_download videoUri
  end.

(** Lines 305-308, the [catch] block. *)
Definition handler (e : JsError) : M string :=
  consoleError e ;; throw (rethrown e).

(** Lines 266-309. *)
Definition generateTurnaroundVideo (fuel : nat) (imageDataUrl : string)
  : M string :=
  tryCatch (generateTurnaroundVideo_try fuel imageDataUrl) handler.

(** ** What the provider would answer *)

(** The operation object held after [n] more status queries, starting
    from [operation] when [k] queries were made before. *)
Fixpoint statusAfter (k : nat) (operation : Operation) (n : nat)
  : JsError + Operation :=
  match n with
  | O => inr operation
  | S n' =>
      match getVideosOperation env k operation with
      | inr operation' => statusAfter (S k) operation' n'
      | inl e => inl e
      end
  end.

(** The job as it stands after creation and [n] status queries. *)
Definition jobAfter (req : VideoRequest) (n : nat) : JsError + Operation :=
  match generateVideos env req with
  | inr operation => statusAfter 0 operation n
  | inl e => inl e
  end.

End Service.

(** ** Reading a log *)

Definition suspensionOf (ev : Event) : list Z :=
  match ev with
  | EvSleep ms => [ms]
  | _ => []
  end.

(** The durations of the suspensions, in order. *)
Definition suspensions (l : list Event) : list Z := flat_map suspensionOf l.

Definition suspendedMs (l : list Event) : Z :=
  fold_right Z.add 0%Z (suspensions l).

Definition isStatusFetch (ev : Event) : bool :=
  match ev with
  | EvGetVideosOperation _ => true
  | _ => false
  end.

Definition isCreation (ev : Event) : bool :=
  match ev with
  | EvGenerateVideos _ => true
  | _ => false
  end.

Definition statusFetches (l : list Event) : nat :=
  length (filter isStatusFetch l).

Definition creations (l : list Event) : nat :=
  length (filter isCreation l).

(** One round of the loop on the operation [operation]. *)
Definition pollRound (operation : Operation) : list Event :=
  [EvSleep pollIntervalMs; EvGetVideosOperation operation].

(** ** Runs of a job *)

(** The job is created and is not done after creation nor after any of
    the first [n - 1] status queries: the loop makes at least [n] rounds. *)
Definition stillPolling (env : Provider) (req : VideoRequest) (n : nat) : Prop :=
  forall i, i < n ->
    exists o, jobAfter env req i = inr o /\ isDone o = false.

(** The job first reports [done] on status query [n] (on creation when
    [n = 0]), with the operation object [final]. *)
Definition completesOn (env : Provider) (req : VideoRequest) (n : nat)
  (final : Operation) : Prop :=
  stillPolling env req n /\
  jobAfter env req n = inr final /\ isDone final = true.

(** Status query [n] (the creation when [n = 0]) raises [e], and the job
    was not done before. *)
Definition failsOn (env : Provider) (req : VideoRequest) (n : nat)
  (e : JsError) : Prop :=
  stillPolling env req n /\ jobAfter env req n = inl e.

(** Whether the job has come to an end after creation and [k] status
    queries: a call raised, or the status says [done]. *)
Definition ended (env : Provider) (req : VideoRequest) (k : nat) : bool :=
  match jobAfter env req k with
  | inl _ => true
  | inr o => isDone o
  end.

(** The log of a creation followed by one round per operation of [ops]. *)
Definition pollingLog (req : VideoRequest) (ops : list Operation) : list Event :=
  EvGenerateVideos req :: flat_map pollRound ops.

(** The shapes of a response from which line 293 reads no URI: no
    response, no list of generated videos, an empty list, a first entry
    without a video, a first video without a URI. *)
Inductive PartialShape : Operation -> Prop :=
| NoResponse (d : option bool) (e : option string) :
    PartialShape {| done := d; error := e; response := None |}
| NoGeneratedVideos (d : option bool) (e : option string) :
    PartialShape
      {| done := d; error := e;
         response := Some {| generatedVideos := None |} |}
| EmptyGeneratedVideos (d : option bool) (e : option string) :
    PartialShape
      {| done := d; error := e;
         response := Some {| generatedVideos := Some [] |} |}
| NoVideo (d : option bool) (e : option string) (others : list GeneratedVideo) :
    PartialShape
      {| done := d; error := e;
         response :=
           Some {| generatedVideos := Some ({| video := None |} :: others) |} |}
| NoUri (d : option bool) (e : option string) (others : list GeneratedVideo) :
    PartialShape
      {| done := d; error := e;
         response :=
           Some {| generatedVideos :=
                     Some ({| video := Some {| uri := None |} |} :: others) |} |}.

(** ** Sample jobs *)

Definition pendingOperation : Operation :=
  {| done := Some false; error := None; response := None |}.

Definition finishedOperation (videoUri : string) : Operation :=
  {| done := Some true;
     error := None;
     response :=
       Some {| generatedVideos :=
                 Some [ {| video := Some {| uri := Some videoUri |} |} ] |} |}.

(** Done, with neither a response nor an error payload. *)
Definition emptyOperation : Operation :=
  {| done := Some true; error := None; response := None |}.

Definition okDownload : FetchResponse :=
  {| ok := true; statusText := "OK"; blob := inr "mp4-bytes" |}.

(** The scenario of the specification: not done on creation, not done on
    the first status query, done with result [X] on the second. *)
Definition scenario : Provider :=
  {| API_KEY := Some "KEY";
     generateVideos := fun _ => inr pendingOperation;
     getVideosOperation :=
       fun k _ =>
         match k with
         | O => inr pendingOperation
         | _ => inr (finishedOperation "X")
         end;
     fetch := fun _ => inr okDownload;
     createObjectURL := fun b => "blob:" ++ b |}.

(** A provider whose job is done as soon as it is created. *)
Definition immediate (final : Operation) : Provider :=
  {| API_KEY := Some "KEY";
     generateVideos := fun _ => inr final;
     getVideosOperation := fun _ o => inr o;
     fetch := fun _ => inr okDownload;
     createObjectURL := fun b => "blob:" ++ b |}.

(** A provider whose job never finishes. *)
Definition stuck : Provider :=
  {| API_KEY := Some "KEY";
     generateVideos := fun _ => inr pendingOperation;
     getVideosOperation := fun _ _ => inr pendingOperation;
     fetch := fun _ => inr okDownload;
     createObjectURL := fun b => "blob:" ++ b |}.

(** A provider whose second status query raises [e]. *)
Definition flaky (e : JsError) : Provider :=
  {| API_KEY := Some "KEY";
     generateVideos := fun _ => inr pendingOperation;
     getVideosOperation :=
       fun k _ =>
         match k with
         | O => inr pendingOperation
         | _ => inl e
         end;
     fetch := fun _ => inr okDownload;
     createObjectURL := fun b => "blob:" ++ b |}.

(** A provider that refuses the creation with [e]. *)
Definition refusing (e : JsError) : Provider :=
  {| API_KEY := Some "KEY";
     generateVideos := fun _ => inl e;
     getVideosOperation := fun _ o => inr o;
     fetch := fun _ => inr okDownload;
     createObjectURL := fun b => "blob:" ++ b |}.

Definition pngDataUrl : string := "data:image/png;base64,iVBORw0KGgo=".

Definition pngRequest : VideoRequest :=
  {| model := "veo-3.1-fast-generate-preview";
     prompt := turntablePrompt;
     imageBytes := Some "iVBORw0KGgo=";
     mimeType := "image/png";
     numberOfVideos := 1;
     resolution := "720p";
     aspectRatio := "16:9" |}.

Definition notFound : JsError :=
  {| name := "ApiError"; message := Some "Requested entity was not found." |}.

Definition silent : JsError :=
  {| name := "Error"; message := Some "" |}.


(** ** The image functions of the same file

    [getViewPrompt], [fileToBase64], [generateView] and
    [analyzeStyleConsistency], with the types of [src/types.ts].  Strings
    are sequences of bytes (UTF-8); numbers are the integers that the
    sliders of the page produce with [parseInt]. *)

Module Image.

Inductive ViewType : Type := SHEET | FRONT | SIDE | BACK | TOP.

Inductive BackgroundType : Type := WHITE | TRANSPARENT | CUSTOM_COLOR.

(** ['1K' | '2K' | '4K']. *)
Inductive ImageResolution : Type := R1K | R2K | R4K.

Record BackgroundConfig : Type := mkBackgroundConfig {
  type : BackgroundType;
  color : string
}.

Record PoseConfig : Type := mkPoseConfig {
  armAngle : Z;
  legSpread : Z
}.

(** A [File]: [file.type] and what [FileReader.readAsDataURL] gives for
    it, [None] when the reader fires [onerror]. *)
Record File : Type := mkFile {
  fileType : string;
  readAsDataURL : option string
}.

(** The value a parameter takes when the argument is left out. *)
Definition withDefault {A} (d : A) (o : option A) : A :=
  match o with
  | Some a => a
  | None => d
  end.

Definition nl : string := String (ascii_of_nat 10) EmptyString.

(** The double quote and the degree sign (two bytes in UTF-8). *)
Definition dq : string := String (ascii_of_nat 34) EmptyString.

Definition deg : string :=
  String (ascii_of_nat 194) (String (ascii_of_nat 176) EmptyString).

(** A number inside a template literal: decimal digits, with a minus sign
    when negative. *)
Definition showNumber (n : Z) : string :=
  NilZero.string_of_int (Z.to_int n).

(** Whether the character [c] occurs in [s]. *)
Fixpoint occurs (c : ascii) (s : string) : bool :=
  match s with
  | EmptyString => false
  | String a rest => Ascii.eqb a c || occurs c rest
  end.

(** *** [getViewPrompt] (lines 24-118)

    The local variables of the function are definitions of their own.
    The [default] branch of the [switch] on the view is left out: the
    five values of the enumeration have a branch each. *)

Definition dimMap (resolution : ImageResolution) : string :=
  match resolution with
  | R1K => "1024x1024"
  | R2K => "2048x2048"
  | R4K => "4096x4096"
  end.

Definition backgroundInstruction (backgroundConfig : option BackgroundConfig)
  : string :=
  match backgroundConfig with
  | None => "Background must be solid white."
  | Some c =>
      match type c with
      | WHITE =>
          "Background must be solid white."
      | TRANSPARENT =>
          "Background must be transparent. Isolate the subject " ++
          "completely with no background. Return a PNG image with " ++
          "alpha channel."
      | CUSTOM_COLOR =>
          "Background must be a solid flat color with hex code " ++
          color c ++ "."
      end
  end.

Definition formatInstruction (backgroundConfig : option BackgroundConfig)
  (dim : string) : string :=
  match backgroundConfig with
  | None => "Output format: standard " ++ dim ++ " square image."
  | Some c =>
      match type c with
      | TRANSPARENT =>
          "Output format: standard " ++ dim ++
          " square PNG image with transparency."
      | _ => "Output format: standard " ++ dim ++ " square image."
      end
  end.

Definition modificationInstruction (customPrompt : option string) : string :=
  match truthy customPrompt with
  | Some c =>
      "Modifications: " ++ c ++ "."
  | None => ""
  end.

Definition fidelityInstruction (fidelity : Z) : string :=
  if (90 <=? fidelity)%Z then
    "EXTREME FIDELITY REQUIRED: Duplicate the original character's " ++
    "facial features, exact body proportions, costume patterns, and " ++
    "painting style precisely. Do not alter the anatomy style (e.g., " ++
    "if chibi, keep chibi; if realistic, keep realistic)."
  else if (70 <=? fidelity)%Z then
    "High Fidelity: Maintain the character's core design, " ++
    "proportions, and style closely. Small adjustments for 3D " ++
    "readiness are allowed but keep the look recognizable."
  else if (40 <=? fidelity)%Z then
    "Balanced Fidelity: Preserve the character's identity and key " ++
    "features (hair, costume), but standardize the body proportions " ++
    "to be more suitable for a generic 3D model (e.g., straighten " ++
    "posture, normalize limb lengths)."
  else
    "Creative Freedom: Use the input image as a loose reference. " ++
    "Reinterpret the character with idealized 3D modeling " ++
    "proportions and clean lines. You may significantly alter the " ++
    "style to make it production-ready.".

(** The band a fidelity falls in, by the tests of lines 63-69. *)
Definition fidelityBand (fidelity : Z) : nat :=
  if (90 <=? fidelity)%Z then 3
  else if (70 <=? fidelity)%Z then 2
  else if (40 <=? fidelity)%Z then 1
  else 0.

Definition common (backgroundConfig : option BackgroundConfig)
  (resolution : ImageResolution) (customPrompt : option string)
  (fidelity : Z) : string :=
  "The output should be a high-quality orthographic projection for " ++
  "3D modeling. " ++ backgroundInstruction backgroundConfig ++ " " ++
  modificationInstruction customPrompt ++ nl ++ "  " ++ nl ++ "  " ++
  fidelityInstruction fidelity ++ nl ++ "  " ++ nl ++
  "  CRITICAL REQUIREMENT: Pay EXTREME attention to hand and finger " ++
  "anatomy. Ensure fingers are distinct, well-separated, and " ++
  "anatomically correct (5 distinct fingers per hand). Avoid fused, " ++
  "blurry, or distorted digits. Hands must be high-definition and " ++
  "clearly readable." ++ nl ++ nl ++ "  " ++
  formatInstruction backgroundConfig (dimMap resolution).

Definition poseInstructions (poseConfig : option PoseConfig) : string :=
  match poseConfig with
  | Some p =>
      "Pose Requirements: Arms should be extended at exactly " ++
      showNumber (armAngle p) ++ " degrees from the body (0" ++ deg ++
      " is down at sides, 90" ++ deg ++
      " is horizontal T-Pose). Legs should have a spread of " ++
      "approximately " ++ showNumber (legSpread p) ++ " degrees."
  | None => ""
  end.

Definition sideLegInstruction (poseConfig : option PoseConfig) : string :=
  match poseConfig with
  | Some p =>
      "Legs should be straight or slightly spread (" ++
      showNumber (legSpread p) ++ " degrees)."
  | None => "Legs straight."
  end.

Definition getViewPrompt (viewType : ViewType)
  (poseConfig : option PoseConfig)
  (backgroundConfig : option BackgroundConfig)
  (resolution : option ImageResolution)
  (customPrompt : option string)
  (fidelity : option Z) : string :=
  let shared :=
    common backgroundConfig (withDefault R1K resolution) customPrompt
      (withDefault 90%Z fidelity) in
  let withPose := fun text : string =>
    text ++ " " ++ poseInstructions poseConfig ++ " " ++ shared in
  match viewType with
  | SHEET =>
      withPose
        ("Generate a **Character Sheet** containing 4 views: **Front " ++
         "View**, **Side View**, **Back View**, and **Top View**. " ++
         "Arrange them clearly. The character must follow the " ++
         "specified pose angles for front and back views.")
  | FRONT =>
      withPose
        ("Generate a standard **Front View**. The character should " ++
         "face forward.")
  | SIDE =>
      "Generate a standard **Side View** (Profile). The character " ++
      "must face strictly left or right." ++ nl ++ "      " ++ nl ++
      "      **CRITICAL ARM POSE**: " ++ nl ++
      "      The arm must be positioned **VERTICALLY along the side " ++
      "of the body** (neutral position), regardless of the Front " ++
      "View pose. " ++ nl ++
      "      - The arm should hang naturally at the side." ++ nl ++
      "      - The hand should be near the hip or thigh." ++ nl ++
      "      - This is to ensure the profile silhouette of the torso " ++
      "is visible and to avoid " ++ dq ++ "zombie arms" ++ dq ++ "." ++
      nl ++ "      - **ABSOLUTELY NO** arms reaching forward. The angle " ++
      "between the arm and the vertical body axis should be near " ++
      "0-15 degrees (relaxed)." ++ nl ++
      "      - Do not obscure the chest or stomach profile if " ++
      "possible." ++ nl ++ "      " ++ nl ++ "      " ++
      sideLegInstruction poseConfig ++ nl ++ "      " ++ nl ++ "      " ++
      shared
  | BACK =>
      withPose
        ("Generate a standard **Back View**. The character should " ++
         "face away.")
  | TOP =>
      "Generate a standard **Top View** (Bird's eye view) of the " ++
      "character. Arms and legs position should match the requested " ++
      "pose. " ++ shared
  end.

(** *** Calls to the model *)

(** A part of the request: [{inlineData: {data, mimeType}}] or [{text}].
    The data is what [split(',')[1]] gave, so it can be undefined. *)
Inductive RequestPart : Type :=
| InlinePart (data : option string) (mimeType : string)
| TextPart (text : string).

Inductive Schema : Type :=
| SchemaObject (properties : list Property) (required : list string)
| SchemaNumber (description : string)
| SchemaString (description : option string)
| SchemaArray (items : Schema) (description : string)
with Property : Type :=
| property (key : string) (schema : Schema).

Inductive RequestConfig : Type :=
| ImageConfig (aspectRatio : string) (imageSize : option ImageResolution)
| JsonConfig (responseMimeType : string) (responseSchema : Schema).

Record ContentRequest : Type := mkContentRequest {
  model : string;
  contents : list RequestPart;
  config : RequestConfig
}.

(** The fields of the response that the functions read; all of them are
    optional in the SDK's types. *)
Record InlineData : Type := mkInlineData {
  data : option string;
  mimeType : option string
}.

Record Part : Type := mkPart {
  inlineData : option InlineData;
  text : option string
}.

Record Content : Type := mkContent {
  parts : option (list Part)
}.

Record Candidate : Type := mkCandidate {
  content : option Content
}.

Record GenerateContentResponse : Type := mkContentResponse {
  candidates : option (list Candidate);
  responseText : option string
}.

Inductive ImageEvent : Type :=
| EvReadAsDataURL (file : File)
| EvGenerateContent (req : ContentRequest)
| EvJsonParse (json : string)
| EvLogError (label : string) (e : JsError).

(** An [async] function that only makes calls: the calls it made, in
    order, and how it ended. *)
Definition W (A : Type) : Type := list ImageEvent * Outcome A.

Definition wret {A} (a : A) : W A := ([], Returned a).

Definition wthrow {A} (e : JsError) : W A := ([], Thrown e).

Definition wbind {A B} (m : W A) (f : A -> W B) : W B :=
  match m with
  | (l, Returned a) => let (l', o) := f a in ((l ++ l')%list, o)
  | (l, Thrown e) => (l, Thrown e)
  | (l, Pending) => (l, Pending)
  end.

Definition wcatch {A} (m : W A) (handler : JsError -> W A) : W A :=
  match m with
  | (l, Thrown e) => let (l', o) := handler e in ((l ++ l')%list, o)
  | r => r
  end.

Definition call {A} (ev : ImageEvent) (reply : JsError + A) : W A :=
  ([ev], settle reply).

Declare Scope img_scope.
Notation "x <- m ;; k" := (wbind m (fun x => k))
  (at level 61, m at next level, right associativity) : img_scope.
Notation "m ;; k" := (wbind m (fun _ => k))
  (at level 61, right associativity) : img_scope.
Local Open Scope img_scope.

(** What reaches [reader.onerror]: an event, which has no [message]. *)
Definition progressEvent : JsError :=
  {| name := "ProgressEvent"; message := None |}.

(** Lines 10-22. *)
Definition fileToBase64 (file : File) : W (option string) :=
  call (EvReadAsDataURL file)
    match readAsDataURL file with
    | Some result => inr (nth_error (split "," result) 1)
    | None => inl progressEvent
    end.

(** [parts[1]] and [parts[0].split(':')[1].split(';')[0]] of a data URL
    (lines 198-200, the same three lines as 270-272). *)
Definition dataUrlParts (dataUrl : string) : JsError + (option string * string) :=
  let parts := split "," dataUrl in
  match nth_error (split ":" (hd EmptyString parts)) 1 with
  | None => inl typeErrorSplit
  | Some afterColon =>
      inr (nth_error parts 1, hd EmptyString (split ";" afterColon))
  end.

Definition typeErrorParts : JsError :=
  {| name := "TypeError";
     message := Some "Cannot read properties of undefined (reading 'parts')" |}.

Definition typeErrorNotIterable : JsError :=
  {| name := "TypeError";
     message :=
       Some "response.candidates[0].content.parts is not iterable" |}.

Definition noImage : JsError := newError "No image generated in the response.".

(** The loop of lines 173-179: the first part that has inline data. *)
Fixpoint firstInlineData (ps : list Part) : option InlineData :=
  match ps with
  | [] => None
  | part :: rest =>
      match inlineData part with
      | Some d => Some d
      | None => firstInlineData rest
      end
  end.

(** Line 177. *)
Definition imageDataUrl (d : InlineData) : string :=
  "data:" ++ orElse (mimeType d) "image/png" ++ ";base64," ++ render (data d).

(** Lines 172-182. *)
Definition imageOf (response : GenerateContentResponse) : JsError + string :=
  match candidates response with
  | Some (candidate :: _) =>
      match content candidate with
      | None => inl typeErrorParts
      | Some c =>
          match parts c with
          | None => inl typeErrorNotIterable
          | Some ps =>
              match firstInlineData ps with
              | Some d => inr (imageDataUrl d)
              | None => inl noImage
              end
          end
      end
  | _ => inl noImage
  end.

Definition proModel : string := "gemini-3-pro-image-preview".

(** Line 140. *)
Definition modelFor (resolution : ImageResolution) : string :=
  match resolution with
  | R1K => "gemini-2.5-flash-image"
  | _ => proModel
  end.

(** Lines 143-170: the request of [generateView]. *)
Definition viewRequest (base64Data : option string) (mimeType : string)
  (prompt : string) (resolution : ImageResolution) : ContentRequest :=
  let model := modelFor resolution in
  {| model := model;
     contents := [InlinePart base64Data mimeType; TextPart prompt];
     config :=
       ImageConfig "1:1"
         (if String.eqb model proModel then Some resolution else None) |}.

Definition analysisPrompt : string :=
  "Analyze the second image (generated orthographic view) against " ++
  "the first image (original character design). Evaluate how well " ++
  "the style, color palette, costume details, and facial features " ++
  "match the original. Provide a consistency score (1-10) and a " ++
  "breakdown of strengths and improvements needed.".

Definition styleAnalysisSchema : Schema :=
  SchemaObject
    [ property "score"
       (SchemaNumber
         "A score from 1 to 10 indicating how well the style matches.");
      property "summary"
       (SchemaString
         (Some "A concise summary of the visual consistency analysis."));
      property "strengths"
       (SchemaArray (SchemaString None)
         ("List of key visual elements that were successfully " ++
          "preserved."));
      property "improvements"
       (SchemaArray (SchemaString None)
         ("List of discrepancies or details that differ from the " ++
          "original style.")) ]
    ["score"; "summary"; "strengths"; "improvements"].

(** Lines 202-250: the request of [analyzeStyleConsistency]. *)
Definition analysisRequest (originalBase64 : option string)
  (originalType : string) (generatedBase64 : option string)
  (generatedMimeType : string) : ContentRequest :=
  {| model := "gemini-2.5-flash";
     contents := [ InlinePart originalBase64 originalType;
                   InlinePart generatedBase64 generatedMimeType;
                   TextPart analysisPrompt ];
     config := JsonConfig "application/json" styleAnalysisSchema |}.

(** The request that [generateView] sends for a file that the reader
    turned into the data URL [result] (lines 134-170). *)
Definition requestOfView (file : File) (viewType : ViewType)
  (poseConfig : option PoseConfig)
  (backgroundConfig : option BackgroundConfig)
  (resolution : option ImageResolution)
  (customPrompt : option string)
  (fidelity : option Z) (result : string) : ContentRequest :=
  viewRequest (nth_error (split "," result) 1) (fileType file)
    (getViewPrompt viewType poseConfig backgroundConfig
       (Some (withDefault R1K resolution)) customPrompt
       (Some (withDefault 90%Z fidelity)))
    (withDefault R1K resolution).

Section Calls.

Variable Json : Type.

(** The model behind [ai.models.generateContent], and [JSON.parse]. *)
Record Studio : Type := mkStudio {
  generateContent : ContentRequest -> JsError + GenerateContentResponse;
  jsonParse : string -> JsError + Json
}.

Variable env : Studio.

Definition callGenerateContent (req : ContentRequest)
  : W GenerateContentResponse :=
  call (EvGenerateContent req) (generateContent env req).

Definition logError {A} (label : string) (e : JsError) (rethrow : JsError)
  : W A :=
  ([EvLogError label e], Thrown rethrow).

(** Lines 123-188. *)
Definition generateView (file : File) (viewType : ViewType)
  (poseConfig : option PoseConfig)
  (backgroundConfig : option BackgroundConfig)
  (resolution : option ImageResolution)
  (customPrompt : option string)
  (fidelity : option Z) : W string :=
  wcatch
    (base64Data <- fileToBase64 file ;;
     let prompt :=
       getViewPrompt viewType poseConfig backgroundConfig
         (Some (withDefault R1K resolution)) customPrompt
         (Some (withDefault 90%Z fidelity)) in
     response <-
       callGenerateContent
         (viewRequest base64Data (fileType file) prompt
            (withDefault R1K resolution)) ;;
     match imageOf response with
     | inr url => wret url
     | inl e => wthrow e
     end)
    (fun e =>
       logError "Gemini API Error:" e
         (newError (orElse (message e) "Failed to generate image."))).

(** Lines 193-261. *)
Definition analyzeStyleConsistency (originalFile : File)
  (generatedImageDataUrl : string) : W Json :=
  wcatch
    (originalBase64 <- fileToBase64 originalFile ;;
     match dataUrlParts generatedImageDataUrl with
     | inl e => wthrow e
     | inr (generatedBase64, generatedMimeType) =>
         response <-
           callGenerateContent
             (analysisRequest originalBase64 (fileType originalFile)
                generatedBase64 generatedMimeType) ;;
         match truthy (responseText response) with
         | Some json => call (EvJsonParse json) (jsonParse env json)
         | None => wthrow (newError "No analysis generated")
         end
     end)
    (fun e =>
       logError "Analysis Error:" e
         (newError "Failed to analyze style consistency.")).

End Calls.

Arguments generateContent {Json} _ _.
Arguments jsonParse {Json} _ _.

End Image.

(** ** The page that calls the service ([src/App.tsx])

    The handlers of the [App] component read the state of the render in
    which they were created and queue updates to it; a run of a handler is
    modelled by the state it was created in and the state after all its
    updates, in order. *)

Module App.

Import Image.

Inductive AppStatus : Type := IDLE | PROCESSING | SUCCESS | ERROR.

(** [window.aistudio], when the page runs inside the studio.
    [hasSelectedApiKey] is [None] when it is not a function;
    [openSelectKey] is answered by the number of dialogs opened before. *)
Record AiStudio : Type := mkAiStudio {
  hasSelectedApiKey : option (JsError + bool);
  openSelectKey : nat -> JsError + unit
}.

(** [s.includes(needle)]. *)
Fixpoint includes (needle s : string) : bool :=
  String.prefix needle s ||
  match s with
  | EmptyString => false
  | String _ rest => includes needle rest
  end.

(** [\w] of a regular expression without flags. *)
Definition isWord (c : ascii) : bool :=
  let n := nat_of_ascii c in
  ((48 <=? n)%nat && (n <=? 57)%nat) || ((65 <=? n)%nat && (n <=? 90)%nat) ||
  ((97 <=? n)%nat && (n <=? 122)%nat) || (n =? 95)%nat.

(** The longest run of word characters at the start of [s], and the rest. *)
Fixpoint takeWord (s : string) : string * string :=
  match s with
  | EmptyString => (EmptyString, EmptyString)
  | String c rest =>
      if isWord c then
        let (w, r) := takeWord rest in (String c w, r)
      else (EmptyString, s)
  end.

(** [s] without the prefix [p], when it starts with it. *)
Fixpoint stripPrefix (p s : string) : option string :=
  match p, s with
  | EmptyString, _ => Some s
  | String a p', String b s' =>
      if Ascii.eqb a b then stripPrefix p' s' else None
  | String _ _, EmptyString => None
  end.

(** [/data:(image\/\w+);base64/] tried at the start of [s]: the group it
    captures.  The semicolon is no word character, so only the longest
    run of word characters can be followed by it. *)
Definition matchImageMimeAt (s : string) : option string :=
  match stripPrefix "data:image/" s with
  | Some r =>
      let (w, r') := takeWord r in
      match w, stripPrefix ";base64" r' with
      | String _ _, Some _ => Some ("image/" ++ w)
      | _, _ => None
      end
  | None => None
  end.

(** Line 154: [generatedImageUrl.match(...)?.[1]], the leftmost match. *)
Fixpoint matchImageMime (s : string) : option string :=
  match matchImageMimeAt s with
  | Some m => Some m
  | None =>
      match s with
      | EmptyString => None
      | String _ rest => matchImageMime rest
      end
  end.

(** Lines 154-158. *)
Definition extensionFor (generatedImageUrl : string) : string :=
  let mimeType := matchImageMime generatedImageUrl in
  let extension := "png" in
  let equals := fun (expected : string) =>
    match mimeType with
    | Some m => String.eqb m expected
    | None => false
    end in
  let extension := if equals "image/jpeg" then "jpg" else extension in
  let extension := if equals "image/webp" then "webp" else extension in
  extension.

(** [viewType.toLowerCase()] and [resolution.toLowerCase()]. *)
Definition viewTypeLower (v : ViewType) : string :=
  match v with
  | SHEET => "sheet"
  | FRONT => "front"
  | SIDE => "side"
  | BACK => "back"
  | TOP => "top"
  end.

Definition resolutionLower (r : ImageResolution) : string :=
  match r with
  | R1K => "1k"
  | R2K => "2k"
  | R4K => "4k"
  end.

(** Line 162: the name of the downloaded file; [now] is [Date.now()]. *)
Definition downloadName (generatedImageUrl : string) (v : ViewType)
  (r : ImageResolution) (now : Z) : string :=
  "generated-view-" ++ viewTypeLower v ++ "-" ++ resolutionLower r ++ "-" ++
  showNumber now ++ "." ++ extensionFor generatedImageUrl.

(** Line 348 (the [ImageInput] component): whether the pose sliders are
    shown. *)
Definition showPoseControls (selectedView : ViewType) : bool :=
  match selectedView with
  | FRONT | SHEET | BACK => true
  | _ => false
  end.

Definition keyIssueMessage : string :=
  "API Key issue detected. Please select your key again and retry.".

Definition keyIssueMark : string := "Requested entity was not found".

Section Page.

Variable Json : Type.

(** The state of the component (lines 9-27). *)
Record UiState : Type := mkUiState {
  status : AppStatus;
  selectedFile : option File;
  previewUrl : option string;
  generatedImageUrl : option string;
  error : option string;
  viewType : ViewType;
  poseConfig : PoseConfig;
  backgroundConfig : BackgroundConfig;
  resolution : ImageResolution;
  customPrompt : string;
  fidelity : Z;
  analysis : option Json;
  isAnalyzing : bool;
  videoUrl : option string;
  isGeneratingVideo : bool
}.

(** The initial state (lines 9-27). *)
Definition initialUi : UiState :=
  {| status := IDLE; selectedFile := None; previewUrl := None;
     generatedImageUrl := None; error := None; viewType := SHEET;
     poseConfig := {| armAngle := 90; legSpread := 10 |};
     backgroundConfig := {| type := WHITE; color := "#00ff00" |};
     resolution := R1K; customPrompt := ""; fidelity := 90;
     analysis := None; isAnalyzing := false; videoUrl := None;
     isGeneratingVideo := false |}.

Definition setSelectedFile (v : option File) (ui : UiState) : UiState :=
  {| status := status ui;
     selectedFile := v;
     previewUrl := previewUrl ui;
     generatedImageUrl := generatedImageUrl ui;
     error := error ui;
     viewType := viewType ui;
     poseConfig := poseConfig ui;
     backgroundConfig := backgroundConfig ui;
     resolution := resolution ui;
     customPrompt := customPrompt ui;
     fidelity := fidelity ui;
     analysis := analysis ui;
     isAnalyzing := isAnalyzing ui;
     videoUrl := videoUrl ui;
     isGeneratingVideo := isGeneratingVideo ui |}.

Definition setResolution (v : ImageResolution) (ui : UiState) : UiState :=
  {| status := status ui;
     selectedFile := selectedFile ui;
     previewUrl := previewUrl ui;
     generatedImageUrl := generatedImageUrl ui;
     error := error ui;
     viewType := viewType ui;
     poseConfig := poseConfig ui;
     backgroundConfig := backgroundConfig ui;
     resolution := v;
     customPrompt := customPrompt ui;
     fidelity := fidelity ui;
     analysis := analysis ui;
     isAnalyzing := isAnalyzing ui;
     videoUrl := videoUrl ui;
     isGeneratingVideo := isGeneratingVideo ui |}.

Definition setStatus (v : AppStatus) (ui : UiState) : UiState :=
  {| status := v;
     selectedFile := selectedFile ui;
     previewUrl := previewUrl ui;
     generatedImageUrl := generatedImageUrl ui;
     error := error ui;
     viewType := viewType ui;
     poseConfig := poseConfig ui;
     backgroundConfig := backgroundConfig ui;
     resolution := resolution ui;
     customPrompt := customPrompt ui;
     fidelity := fidelity ui;
     analysis := analysis ui;
     isAnalyzing := isAnalyzing ui;
     videoUrl := videoUrl ui;
     isGeneratingVideo := isGeneratingVideo ui |}.

Definition setGeneratedImageUrl (v : option string) (ui : UiState) : UiState :=
  {| status := status ui;
     selectedFile := selectedFile ui;
     previewUrl := previewUrl ui;
     generatedImageUrl := v;
     error := error ui;
     viewType := viewType ui;
     poseConfig := poseConfig ui;
     backgroundConfig := backgroundConfig ui;
     resolution := resolution ui;
     customPrompt := customPrompt ui;
     fidelity := fidelity ui;
     analysis := analysis ui;
     isAnalyzing := isAnalyzing ui;
     videoUrl := videoUrl ui;
     isGeneratingVideo := isGeneratingVideo ui |}.

Definition setError (v : option string) (ui : UiState) : UiState :=
  {| status := status ui;
     selectedFile := selectedFile ui;
     previewUrl := previewUrl ui;
     generatedImageUrl := generatedImageUrl ui;
     error := v;
     viewType := viewType ui;
     poseConfig := poseConfig ui;
     backgroundConfig := backgroundConfig ui;
     resolution := resolution ui;
     customPrompt := customPrompt ui;
     fidelity := fidelity ui;
     analysis := analysis ui;
     isAnalyzing := isAnalyzing ui;
     videoUrl := videoUrl ui;
     isGeneratingVideo := isGeneratingVideo ui |}.

Definition setAnalysis (v : option Json) (ui : UiState) : UiState :=
  {| status := status ui;
     selectedFile := selectedFile ui;
     previewUrl := previewUrl ui;
     generatedImageUrl := generatedImageUrl ui;
     error := error ui;
     viewType := viewType ui;
     poseConfig := poseConfig ui;
     backgroundConfig := backgroundConfig ui;
     resolution := resolution ui;
     customPrompt := customPrompt ui;
     fidelity := fidelity ui;
     analysis := v;
     isAnalyzing := isAnalyzing ui;
     videoUrl := videoUrl ui;
     isGeneratingVideo := isGeneratingVideo ui |}.

Definition setIsAnalyzing (v : bool) (ui : UiState) : UiState :=
  {| status := status ui;
     selectedFile := selectedFile ui;
     previewUrl := previewUrl ui;
     generatedImageUrl := generatedImageUrl ui;
     error := error ui;
     viewType := viewType ui;
     poseConfig := poseConfig ui;
     backgroundConfig := backgroundConfig ui;
     resolution := resolution ui;
     customPrompt := customPrompt ui;
     fidelity := fidelity ui;
     analysis := analysis ui;
     isAnalyzing := v;
     videoUrl := videoUrl ui;
     isGeneratingVideo := isGeneratingVideo ui |}.

Definition setVideoUrl (v : option string) (ui : UiState) : UiState :=
  {| status := status ui;
     selectedFile := selectedFile ui;
     previewUrl := previewUrl ui;
     generatedImageUrl := generatedImageUrl ui;
     error := error ui;
     viewType := viewType ui;
     poseConfig := poseConfig ui;
     backgroundConfig := backgroundConfig ui;
     resolution := resolution ui;
     customPrompt := customPrompt ui;
     fidelity := fidelity ui;
     analysis := analysis ui;
     isAnalyzing := isAnalyzing ui;
     videoUrl := v;
     isGeneratingVideo := isGeneratingVideo ui |}.

Definition setIsGeneratingVideo (v : bool) (ui : UiState) : UiState :=
  {| status := status ui;
     selectedFile := selectedFile ui;
     previewUrl := previewUrl ui;
     generatedImageUrl := generatedImageUrl ui;
     error := error ui;
     viewType := viewType ui;
     poseConfig := poseConfig ui;
     backgroundConfig := backgroundConfig ui;
     resolution := resolution ui;
     customPrompt := customPrompt ui;
     fidelity := fidelity ui;
     analysis := analysis ui;
     isAnalyzing := isAnalyzing ui;
     videoUrl := videoUrl ui;
     isGeneratingVideo := v |}.

(** The page while a handler runs: the state, the number of key dialogs
    opened so far, and what was written with [console.error]. *)
Record Page : Type := mkPage {
  ui : UiState;
  opened : nat;
  reported : list JsError
}.

Definition update (f : UiState -> UiState) (p : Page) : Page :=
  {| ui := f (ui p); opened := opened p; reported := reported p |}.

Definition report (e : JsError) (p : Page) : Page :=
  {| ui := ui p; opened := opened p; reported := (reported p ++ [e])%list |}.

Definition opening (p : Page) : Page :=
  {| ui := ui p; opened := S (opened p); reported := reported p |}.

(** Lines 51-67. *)
Definition checkApiKey (aistudio : option AiStudio) (p : Page)
  : Page * Outcome bool :=
  match aistudio with
  | Some a =>
      match hasSelectedApiKey a with
      | Some (inl e) => (p, Thrown e)
      | Some (inr true) => (p, Returned true)
      | Some (inr false) =>
          match openSelectKey a (opened p) with
          | inr _ => (opening p, Returned true)
          | inl e => (report e (opening p), Returned false)
          end
      | None => (p, Returned true)
      end
  | None => (p, Returned true)
  end.

(** The condition of lines 99 and 140: the studio to ask for a key. *)
Definition keyIssue (message : option string) (aistudio : option AiStudio)
  : option AiStudio :=
  match truthy message with
  | Some m => if includes keyIssueMark m then aistudio else None
  | None => None
  end.

(** The [catch] block of lines 136-145 and of lines 95-106, up to the
    fallback message and to what follows [setError]. *)
Definition showFailure (aistudio : option AiStudio) (fallback : string)
  (err : JsError) (p : Page) : Page * Outcome unit :=
  let p := report err p in
  match keyIssue (message err) aistudio with
  | Some a =>
      match openSelectKey a (opened p) with
      | inr _ =>
          (update (setError (Some keyIssueMessage)) (opening p), Returned tt)
      | inl e => (opening p, Thrown e)
      end
  | None =>
      (update (setError (Some (orElse (message err) fallback))) p, Returned tt)
  end.

(** Lines 123-149.  The last component is what the provider saw. *)
Definition handleGenerateVideo (env : Provider) (aistudio : option AiStudio)
  (fuel : nat) (p : Page) : Page * Outcome unit * list Event :=
  match truthy (generatedImageUrl (ui p)) with
  | None => (p, Returned tt, [])
  | Some url =>
      match checkApiKey aistudio p with
      | (p, Thrown e) => (p, Thrown e, [])
      | (p, Pending) => (p, Pending, [])
      | (p, Returned false) => (p, Returned tt, [])
      | (p, Returned true) =>
          let p := update (setIsGeneratingVideo true) p in
          let p := update (setError None) p in
          match generateTurnaroundVideo env fuel url start with
          | (w, Returned resultVideoUrl) =>
              let p := update (setVideoUrl (Some resultVideoUrl)) p in
              (update (setIsGeneratingVideo false) p, Returned tt, log w)
          | (w, Thrown err) =>
              let (p, o) := showFailure aistudio "Failed to generate video." err p in
              (update (setIsGeneratingVideo false) p, o, log w)
          | (w, Pending) => (p, Pending, log w)
          end
      end
  end.

(** Lines 109-121. *)
Definition handleAnalyze (studio : Studio Json) (p : Page)
  : Page * Outcome unit * list ImageEvent :=
  match selectedFile (ui p), truthy (generatedImageUrl (ui p)) with
  | Some file, Some url =>
      let p := update (setIsAnalyzing true) p in
      match analyzeStyleConsistency Json studio file url with
      | (l, Returned result) =>
          let p := update (setAnalysis (Some result)) p in
          (update (setIsAnalyzing false) p, Returned tt, l)
      | (l, Thrown err) =>
          (update (setIsAnalyzing false) (report err p), Returned tt, l)
      | (l, Pending) => (p, Pending, l)
      end
  | _, _ => (p, Returned tt, [])
  end.

(** Lines 69-107. *)
Definition handleGenerate (studio : Studio Json) (aistudio : option AiStudio)
  (p : Page) : Page * Outcome unit * list ImageEvent :=
  match selectedFile (ui p) with
  | None => (p, Returned tt, [])
  | Some file =>
      let checked :=
        match resolution (ui p) with
        | R1K => (p, Returned true)
        | _ => checkApiKey aistudio p
        end in
      match checked with
      | (p, Thrown e) => (p, Thrown e, [])
      | (p, Pending) => (p, Pending, [])
      | (p, Returned false) => (p, Returned tt, [])
      | (p, Returned true) =>
          let p := update (setStatus PROCESSING) p in
          let p := update (setAnalysis None) p in
          let p := update (setVideoUrl None) p in
          let p := update (setError None) p in
          match
            generateView Json studio file (viewType (ui p))
              (Some (poseConfig (ui p))) (Some (backgroundConfig (ui p)))
              (Some (resolution (ui p))) (Some (customPrompt (ui p)))
              (Some (fidelity (ui p)))
          with
          | (l, Returned resultUrl) =>
              let p := update (setGeneratedImageUrl (Some resultUrl)) p in
              (update (setStatus SUCCESS) p, Returned tt, l)
          | (l, Thrown err) =>
              let (p, o) := showFailure aistudio "An unexpected error occurred." err p in
              match o with
              | Returned _ => (update (setStatus ERROR) p, o, l)
              | _ => (p, o, l)
              end
          | (l, Pending) => (p, Pending, l)
          end
      end
  end.

(** The key check of [handleGenerate] (lines 73-76) lets the run start
    from the page [started]: at 1K there is no check, and above 1K
    [checkApiKey] has answered true. *)
Definition runStarts (aistudio : option AiStudio) (p started : Page)
  : Prop :=
  (resolution (ui p) = R1K /\ started = p) \/
  (resolution (ui p) <> R1K /\
   checkApiKey aistudio p = (started, Returned true)).

End Page.

End App.

(** ** More sample values *)

Definition forbidden : FetchResponse :=
  {| ok := false; statusText := "Forbidden"; blob := inr "" |}.

(** The job is done on creation with the result [X]; the download of the
    video is refused. *)
Definition refusedDownload : Provider :=
  {| API_KEY := Some "KEY";
     generateVideos := fun _ => inr (finishedOperation "X");
     getVideosOperation := fun _ o => inr o;
     fetch := fun _ => inr forbidden;
     createObjectURL := fun b => "blob:" ++ b |}.

Definition jpegPart : Image.Part :=
  {| Image.inlineData :=
       Some {| Image.data := Some "QUJD"; Image.mimeType := Some "image/jpeg" |};
     Image.text := None |}.

Definition textPart : Image.Part :=
  {| Image.inlineData := None; Image.text := Some "Here is the view." |}.

Definition pngFile : Image.File :=
  {| Image.fileType := "image/png";
     Image.readAsDataURL := Some "data:image/png;base64,iVBORw0KGgo=" |}.

Definition unreadableFile : Image.File :=
  {| Image.fileType := "image/png"; Image.readAsDataURL := None |}.

(** A model that answers every request with a text part followed by a
    JPEG, and whose text is a JSON document; [JSON.parse] is the
    identity on it. *)
Definition painter : Image.Studio string :=
  {| Image.generateContent :=
       fun _ =>
         inr {| Image.candidates :=
                  Some [ {| Image.content :=
                              Some {| Image.parts :=
                                        Some [textPart; jpegPart] |} |} ];
                Image.responseText := Some "{}" |};
     Image.jsonParse := fun json => inr json |}.

(** A model that answers without candidates and without text. *)
Definition mute : Image.Studio string :=
  {| Image.generateContent :=
       fun _ => inr {| Image.candidates := None; Image.responseText := None |};
     Image.jsonParse := fun json => inr json |}.

(** A model that refuses every request with [e]. *)
Definition refusingStudio (e : JsError) : Image.Studio string :=
  {| Image.generateContent := fun _ => inl e;
     Image.jsonParse := fun json => inr json |}.

(** The studio with a key selected, and whose dialog succeeds. *)
Definition keyedStudio : App.AiStudio :=
  {| App.hasSelectedApiKey := Some (inr true);
     App.openSelectKey := fun _ => inr tt |}.

(** A page that shows a generated image. *)
Definition pageWithImage : App.Page string :=
  {| App.ui :=
       App.setGeneratedImageUrl string (Some pngDataUrl)
         (App.setStatus string App.SUCCESS (App.initialUi string));
     App.opened := 0;
     App.reported := [] |}.

(** A page with a file selected and a generated image shown. *)
Definition pageWithFile : App.Page string :=
  {| App.ui := App.setSelectedFile string (Some pngFile) (App.ui string pageWithImage);
     App.opened := 0;
     App.reported := [] |}.

(** The same page, set to the resolution 2K. *)
Definition pageAt2K : App.Page string :=
  {| App.ui := App.setResolution string Image.R2K (App.ui string pageWithFile);
     App.opened := 0;
     App.reported := [] |}.

Definition dismissed : JsError := newError "The dialog was dismissed.".

(** The studio without a key selected, and whose dialog is rejected. *)
Definition closedStudio : App.AiStudio :=
  {| App.hasSelectedApiKey := Some (inr false);
     App.openSelectKey := fun _ => inl dismissed |}.

(** The studio with a key selected, and whose dialog is rejected. *)
Definition lockedStudio : App.AiStudio :=
  {| App.hasSelectedApiKey := Some (inr true);
     App.openSelectKey := fun _ => inl dismissed |}.


(** The scenario of the specification with the download of the video
    refused. *)
Definition refusedAfterPolling : Provider :=
  {| API_KEY := Some "KEY";
     generateVideos := fun _ => inr pendingOperation;
     getVideosOperation :=
       fun k _ =>
         match k with
         | O => inr pendingOperation
         | _ => inr (finishedOperation "X")
         end;
     fetch := fun _ => inr forbidden;
     createObjectURL := fun b => "blob:" ++ b |}.

(** ** Sanity checks on concrete runs *)

Example videoRequest_png : videoRequest pngDataUrl = inr pngRequest.
Proof. reflexivity. Qed.

Example videoRequest_no_colon :
  videoRequest "iVBORw0KGgo=" = inl typeErrorSplit.
Proof. reflexivity. Qed.

Example scenario_run :
  generateTurnaroundVideo scenario 2 pngDataUrl start =
  ({| polls := 2;
      log := [ EvGenerateVideos pngRequest;
               EvSleep 5000; EvGetVideosOperation pendingOperation;
               EvSleep 5000; EvGetVideosOperation pendingOperation;
               EvFetch "X&key=KEY"; EvBlob; EvCreateObjectURL "mp4-bytes" ] |},
   Returned "blob:mp4-bytes").
Proof. reflexivity. Qed.

Example scenario_short_of_fuel :
  snd (generateTurnaroundVideo scenario 1 pngDataUrl start) = Pending.
Proof. reflexivity. Qed.

(** ** Reading a log: counting lemmas *)

Open Scope list_scope.

Lemma suspensions_app (l1 l2 : list Event) :
  suspensions (l1 ++ l2) = suspensions l1 ++ suspensions l2.
Proof. unfold suspensions. apply flat_map_app. Qed.

Lemma statusFetches_app (l1 l2 : list Event) :
  statusFetches (l1 ++ l2) = statusFetches l1 + statusFetches l2.
Proof. unfold statusFetches. now rewrite filter_app, length_app. Qed.

Lemma creations_app (l1 l2 : list Event) :
  creations (l1 ++ l2) = creations l1 + creations l2.
Proof. unfold creations. now rewrite filter_app, length_app. Qed.

Lemma suspensions_rounds (ops : list Operation) :
  suspensions (flat_map pollRound ops) = repeat pollIntervalMs (length ops).
Proof.
  induction ops as [|o ops IH]; simpl; [reflexivity|].
  now rewrite <- IH.
Qed.

Lemma statusFetches_rounds (ops : list Operation) :
  statusFetches (flat_map pollRound ops) = length ops.
Proof.
  unfold statusFetches.
  induction ops as [|o ops IH]; simpl; [reflexivity|].
  now rewrite IH.
Qed.

Lemma creations_rounds (ops : list Operation) :
  creations (flat_map pollRound ops) = 0.
Proof.
  unfold creations.
  induction ops as [|o ops IH]; simpl; [reflexivity|exact IH].
Qed.

Lemma sum_repeat (ms : Z) (n : nat) :
  fold_right Z.add 0%Z (repeat ms n) = (ms * Z.of_nat n)%Z.
Proof.
  induction n as [|n IH]; [simpl; lia|].
  change (repeat ms (S n)) with (ms :: repeat ms n).
  simpl fold_right. rewrite IH. lia.
Qed.

Lemma suspensions_pollingLog (req : VideoRequest) (ops : list Operation) :
  suspensions (pollingLog req ops) = repeat pollIntervalMs (length ops).
Proof. unfold pollingLog. simpl. apply suspensions_rounds. Qed.

Lemma suspendedMs_pollingLog (req : VideoRequest) (ops : list Operation) :
  suspendedMs (pollingLog req ops) = (pollIntervalMs * Z.of_nat (length ops))%Z.
Proof.
  unfold suspendedMs. rewrite suspensions_pollingLog. apply sum_repeat.
Qed.

Lemma statusFetches_pollingLog (req : VideoRequest) (ops : list Operation) :
  statusFetches (pollingLog req ops) = length ops.
Proof.
  unfold pollingLog.
  change (statusFetches (EvGenerateVideos req :: flat_map pollRound ops))
    with (statusFetches (flat_map pollRound ops)).
  apply statusFetches_rounds.
Qed.

Lemma creations_pollingLog (req : VideoRequest) (ops : list Operation) :
  creations (pollingLog req ops) = 1.
Proof.
  unfold pollingLog.
  change (creations (EvGenerateVideos req :: flat_map pollRound ops))
    with (S (creations (flat_map pollRound ops))).
  now rewrite creations_rounds.
Qed.

(** ** The loop, round by round *)

Section Rounds.

Variable env : Provider.

Lemma statusAfter_S (n k : nat) (operation : Operation) :
  statusAfter env k operation (S n) =
  match statusAfter env k operation n with
  | inr o => getVideosOperation env (k + n) o
  | inl e => inl e
  end.
Proof.
  revert k operation.
  induction n as [|n IH]; intros k operation.
  - simpl. rewrite Nat.add_0_r.
    destruct (getVideosOperation env k operation); reflexivity.
  - change (statusAfter env k operation (S (S n)))
      with (match getVideosOperation env k operation with
            | inr o' => statusAfter env (S k) o' (S n)
            | inl e => inl e
            end).
    change (statusAfter env k operation (S n))
      with (match getVideosOperation env k operation with
            | inr o' => statusAfter env (S k) o' n
            | inl e => inl e
            end).
    destruct (getVideosOperation env k operation) as [e|o']; [reflexivity|].
    rewrite IH. now rewrite Nat.add_succ_r.
Qed.

(** While the status stays "not done" the loop keeps going: [n] rounds
    bring it from [operation] to the status after [n] queries, each round
    adding a suspension and then the query on the operation held then. *)
Lemma loop_rounds (n : nat) :
  forall (k : nat) (operation final : Operation) (w : World) (fuel : nat),
    polls w = k ->
    (forall i, i < n ->
       exists o, statusAfter env k operation i = inr o /\ isDone o = false) ->
    statusAfter env k operation n = inr final ->
    exists ops,
      length ops = n /\
      (forall i, i < n ->
         statusAfter env k operation i = inr (nth i ops final)) /\
      generateTurnaroundVideo_loop env (n + fuel) operation w =
      generateTurnaroundVideo_loop env fuel final
        {| polls := k + n; log := log w ++ flat_map pollRound ops |}.
Proof.
  induction n as [|n IH]; intros k operation final w fuel Hk Hnot Hfin.
  - exists []. simpl in Hfin. injection Hfin as <-.
    split; [reflexivity|]. split; [intros i Hi; lia|].
    simpl. rewrite app_nil_r, Nat.add_0_r, <- Hk. now destruct w.
  - destruct (Hnot 0 ltac:(lia)) as (o0 & Ho0 & Hd0).
    simpl in Ho0. injection Ho0 as <-.
    simpl in Hfin.
    destruct (getVideosOperation env k operation) as [e|o1] eqn:Hget;
      [discriminate|].
    set (w1 := {| polls := S (polls w);
                  log := (log w ++ [EvSleep pollIntervalMs])
                           ++ [EvGetVideosOperation operation] |}).
    destruct (IH (S k) o1 final w1 fuel) as (ops & Hlen & Hnth & Hrun).
    + simpl. now rewrite Hk.
    + intros i Hi. destruct (Hnot (S i) ltac:(lia)) as (o & Ho & Hd).
      simpl in Ho. rewrite Hget in Ho. now exists o.
    + exact Hfin.
    + exists (operation :: ops).
      split; [simpl; now rewrite Hlen|].
      split.
      * intros [|i] Hi; [reflexivity|].
        simpl. rewrite Hget. apply Hnth. lia.
      * change (S n + fuel) with (S (n + fuel)).
        simpl generateTurnaroundVideo_loop at 1. rewrite Hd0.
        unfold bind, sleep, emit, record, callGetVideosOperation.
        simpl. rewrite Hk, Hget. simpl settle. cbv iota.
        unfold w1 in Hrun. simpl in Hrun. rewrite Hk in Hrun.
        rewrite Hrun. f_equal.
        rewrite Nat.add_succ_r. simpl.
        f_equal. rewrite <- !app_assoc. reflexivity.
Qed.

(** More fuel never changes a run that has ended. *)
Lemma loop_more_fuel (fuel extra : nat) :
  forall (operation : Operation) (w : World),
    snd (generateTurnaroundVideo_loop env fuel operation w) <> Pending ->
    generateTurnaroundVideo_loop env (fuel + extra) operation w =
    generateTurnaroundVideo_loop env fuel operation w.
Proof.
  induction fuel as [|fuel IH]; intros operation w Hend.
  - simpl in *. destruct extra; simpl;
      destruct (isDone operation); try reflexivity.
    now contradiction Hend.
  - simpl in *. destruct (isDone operation); [reflexivity|].
    unfold bind in *.
    destruct (sleep pollIntervalMs w) as [w1 [[]|e|]]; try reflexivity.
    destruct (callGetVideosOperation env operation w1) as [w2 [o|e|]];
      try reflexivity.
    now apply IH.
Qed.

End Rounds.

(** ** The polling stage and the whole function *)

Section Runs.

Variable env : Provider.

Lemma loop_done (fuel : nat) (operation : Operation) (w : World) :
  isDone operation = true ->
  generateTurnaroundVideo_loop env fuel operation w = (w, Returned operation).
Proof. intros Hd. destruct fuel; simpl; now rewrite Hd. Qed.

Lemma stillPolling_le (req : VideoRequest) (n m : nat) :
  m <= n -> stillPolling env req n -> stillPolling env req m.
Proof. intros Hle H i Hi. apply H. lia. Qed.

(** After [n] rounds on a job that is not done, the stage stands at the
    status after [n] queries with the log of these [n] rounds. *)
Lemma poll_rounds (req : VideoRequest) (n : nat) (o : Operation) :
  stillPolling env req n ->
  jobAfter env req n = inr o ->
  exists ops,
    length ops = n /\
    (forall i, i < n -> jobAfter env req i = inr (nth i ops o)) /\
    forall fuel,
      generateTurnaroundVideo_poll env (n + fuel) req start =
      afterLoop env fuel o {| polls := n; log := pollingLog req ops |}.
Proof.
  unfold stillPolling, jobAfter. intros Hnot Hfin.
  destruct (generateVideos env req) as [e|o0] eqn:Hgen; [discriminate|].
  destruct (loop_rounds env n 0 o0 o
              (record (EvGenerateVideos req) start) 0 eq_refl Hnot Hfin)
    as (ops & Hlen & Hnth & _).
  exists ops. split; [exact Hlen|]. split; [exact Hnth|].
  intros fuel.
  destruct (loop_rounds env n 0 o0 o
              (record (EvGenerateVideos req) start) fuel eq_refl Hnot Hfin)
    as (ops' & Hlen' & Hnth' & Hrun).
  assert (ops' = ops) as ->.
  { apply nth_ext with (d := o) (d' := o); [congruence|].
    intros i Hi. rewrite Hlen' in Hi.
    specialize (Hnth i Hi). specialize (Hnth' i Hi). congruence. }
  unfold generateTurnaroundVideo_poll, afterLoop, bind, callGenerateVideos.
  rewrite Hgen. simpl settle. cbv iota. rewrite Hrun. reflexivity.
Qed.

(** The job completes on query [n]: [n] rounds, then the extraction. *)
Lemma poll_completes (req : VideoRequest) (n : nat) (final : Operation)
  (fuel : nat) :
  completesOn env req n final ->
  n <= fuel ->
  exists ops,
    length ops = n /\
    (forall i, i < n -> jobAfter env req i = inr (nth i ops final)) /\
    generateTurnaroundVideo_poll env fuel req start =
    ({| polls := n; log := pollingLog req ops |},
     settle (extractVideoUri final)).
Proof.
  intros (Hnot & Hfin & Hdone) Hfuel.
  destruct (poll_rounds req n final Hnot Hfin) as (ops & Hlen & Hnth & Hrun).
  exists ops. split; [exact Hlen|]. split; [exact Hnth|].
  replace fuel with (n + (fuel - n)) by lia.
  rewrite Hrun. unfold afterLoop, bind.
  rewrite loop_done by exact Hdone.
  destruct (extractVideoUri final); reflexivity.
Qed.

(** The creation or a status query raises: the stage stops there. *)
Lemma poll_fails (req : VideoRequest) (n : nat) (e : JsError) (fuel : nat) :
  failsOn env req n e ->
  n <= fuel ->
  exists ops,
    length ops = n /\
    (forall i, i < n ->
       exists o, jobAfter env req i = inr o /\ nth_error ops i = Some o) /\
    generateTurnaroundVideo_poll env fuel req start =
    ({| polls := n; log := pollingLog req ops |}, Thrown e).
Proof.
  intros (Hnot & Hfail) Hfuel.
  destruct n as [|m].
  - exists []. split; [reflexivity|]. split; [intros i Hi; lia|].
    unfold jobAfter in Hfail.
    unfold generateTurnaroundVideo_poll, bind, callGenerateVideos.
    destruct (generateVideos env req) as [e'|o0]; [|discriminate].
    injection Hfail as ->. reflexivity.
  - destruct (Hnot m ltac:(lia)) as (om & Hom & Hdm).
    destruct (poll_rounds req m om (stillPolling_le req (S m) m ltac:(lia) Hnot) Hom)
      as (ops & Hlen & Hnth & Hrun).
    assert (Hget : getVideosOperation env m om = inl e).
    { unfold jobAfter in Hfail, Hom.
      destruct (generateVideos env req) as [e'|o0]; [discriminate|].
      rewrite statusAfter_S, Hom in Hfail. exact Hfail. }
    exists (ops ++ [om]).
    split; [rewrite length_app; simpl; lia|].
    split.
    + intros i Hi. destruct (Nat.eq_dec i m) as [->|Hne].
      * exists om. split; [exact Hom|].
        rewrite nth_error_app2 by lia.
        now rewrite Hlen, Nat.sub_diag.
      * exists (nth i ops om). split; [apply Hnth; lia|].
        rewrite nth_error_app1 by lia.
        apply nth_error_nth'. lia.
    + replace fuel with (m + S (fuel - S m)) by lia.
      rewrite Hrun. unfold afterLoop, bind.
      simpl generateTurnaroundVideo_loop. rewrite Hdm.
      unfold bind, sleep, emit, record, callGetVideosOperation. simpl.
      rewrite Hget. simpl. unfold pollingLog.
      rewrite flat_map_app. simpl.
      rewrite <- app_assoc. reflexivity.
Qed.

(** The job is still not done when the fuel is used up. *)
Lemma poll_pending (req : VideoRequest) (fuel : nat) :
  stillPolling env req (S fuel) ->
  exists ops,
    length ops = fuel /\
    generateTurnaroundVideo_poll env fuel req start =
    ({| polls := fuel; log := pollingLog req ops |}, Pending).
Proof.
  intros Hnot.
  destruct (Hnot fuel ltac:(lia)) as (o & Ho & Hd).
  destruct (poll_rounds req fuel o
              (stillPolling_le req (S fuel) fuel ltac:(lia) Hnot) Ho)
    as (ops & Hlen & _ & Hrun).
  exists ops. split; [exact Hlen|].
  specialize (Hrun 0). rewrite Nat.add_0_r in Hrun. rewrite Hrun.
  unfold afterLoop, bind. simpl. now rewrite Hd.
Qed.

(** The download inside the [try]: its first event is the [fetch] of the
    address built from the URI; it makes no status query, creation or
    suspension, it always ends, and a good reply gives the object URL. *)
Lemma download_run (videoUri : string) (w : World) :
  exists rest out,
    tryCatch (generateTurnaroundVideo_download env videoUri) handler w =
    ({| polls := polls w;
        log := log w ++ EvFetch (downloadUrl env videoUri) :: rest |}, out) /\
    statusFetches rest = 0 /\ creations rest = 0 /\ suspensions rest = [] /\
    out <> Pending /\
    (forall r b,
       fetch env (downloadUrl env videoUri) = inr r ->
       ok r = true -> blob r = inr b ->
       out = Returned (createObjectURL env b)).
Proof.
  unfold tryCatch, generateTurnaroundVideo_download, handler, bind,
    callFetch, callBlob, callCreateObjectURL, consoleError, emit, record,
    throw.
  simpl.
  destruct (fetch env (downloadUrl env videoUri)) as [e|r]; simpl.
  - exists [EvConsoleError e], (Thrown (rethrown e)).
    rewrite <- app_assoc. repeat split; try reflexivity; try discriminate.
  - destruct (ok r) eqn:Hok; simpl.
    + destruct (blob r) as [e|b] eqn:Hblob; simpl.
      * exists [EvBlob; EvConsoleError e], (Thrown (rethrown e)).
        rewrite <- !app_assoc.
        repeat split; try reflexivity; try discriminate.
        intros r' b' Hr' _ Hb'. injection Hr' as <-. congruence.
      * exists [EvBlob; EvCreateObjectURL b],
          (Returned (createObjectURL env b)).
        rewrite <- !app_assoc.
        repeat split; try reflexivity; try discriminate.
        intros r' b' Hr' _ Hb'. injection Hr' as <-.
        rewrite Hblob in Hb'. now injection Hb' as <-.
    + exists [EvConsoleError
                (newError ("Failed to download video: " ++ statusText r)%string)],
        (Thrown (rethrown
                (newError ("Failed to download video: " ++ statusText r)%string))).
      rewrite <- app_assoc.
      repeat split; try reflexivity; try discriminate.
      intros r' b' Hr' Hok'. injection Hr' as <-. congruence.
Qed.

(** The function in terms of its polling stage. *)
Lemma generateTurnaroundVideo_run (fuel : nat) (imageDataUrl : string)
  (req : VideoRequest) :
  videoRequest imageDataUrl = inr req ->
  generateTurnaroundVideo env fuel imageDataUrl start =
  match generateTurnaroundVideo_poll env fuel req start with
  | (w, Returned videoUri) =>
      tryCatch (generateTurnaroundVideo_download env videoUri) handler w
  | (w, Thrown e) => (record (EvConsoleError e) w, Thrown (rethrown e))
  | (w, Pending) => (w, Pending)
  end.
Proof.
  intros Hreq.
  unfold generateTurnaroundVideo, generateTurnaroundVideo_try, tryCatch.
  rewrite Hreq. unfold bind at 1.
  destruct (generateTurnaroundVideo_poll env fuel req start) as [w [u|e|]];
    try reflexivity.
Qed.

End Runs.

(** ** From the stage to the function *)

Section Function.

Variable env : Provider.

Lemma jobAfter_S (req : VideoRequest) (n : nat) :
  jobAfter env req (S n) =
  match jobAfter env req n with
  | inr o => getVideosOperation env n o
  | inl e => inl e
  end.
Proof.
  unfold jobAfter.
  destruct (generateVideos env req) as [e|o0]; [reflexivity|].
  now rewrite statusAfter_S.
Qed.

(** Whatever the stage did, the function only adds events to its log, and
    none of them is a creation, a status query or a suspension. *)
Lemma function_extends_poll (fuel : nat) (imageDataUrl : string)
  (req : VideoRequest) :
  videoRequest imageDataUrl = inr req ->
  exists rest,
    log (fst (generateTurnaroundVideo env fuel imageDataUrl start)) =
    log (fst (generateTurnaroundVideo_poll env fuel req start)) ++ rest /\
    polls (fst (generateTurnaroundVideo env fuel imageDataUrl start)) =
    polls (fst (generateTurnaroundVideo_poll env fuel req start)) /\
    statusFetches rest = 0 /\ creations rest = 0 /\ suspensions rest = [].
Proof.
  intros Hreq. rewrite (generateTurnaroundVideo_run env fuel _ req Hreq).
  destruct (generateTurnaroundVideo_poll env fuel req start) as [w [u|e|]].
  - destruct (download_run env u w)
      as (rest & out & Hrun & Hf & Hc & Hs & _).
    rewrite Hrun. exists (EvFetch (downloadUrl env u) :: rest).
    simpl. repeat split; assumption.
  - exists [EvConsoleError e]. simpl. repeat split; reflexivity.
  - exists []. simpl. rewrite app_nil_r. repeat split; reflexivity.
Qed.

End Function.

(** ** The claims *)

Lemma scenario_completes :
  completesOn scenario pngRequest 2 (finishedOperation "X").
Proof.
  split; [|split; reflexivity].
  intros i Hi. exists pendingOperation.
  destruct i as [|[|i]]; [split; reflexivity..|lia].
Qed.

(** C1. When the job first reports done on status query [N], with
    [N >= 1], the poller suspends exactly [N] times, for [5000] ms each
    time, before it resolves: its log is the creation followed by [N]
    rounds, each a suspension followed by the status query on the
    operation object held at that moment, so every suspension comes before
    the query it belongs to.  The suspended time adds up to [5000 * N] ms,
    the stage resolves to the result [X] of the finished job, and the rest
    of the exported function suspends no further.  In the scenario of the
    specification this gives two suspensions, 10000 ms, and [X]. *)
Theorem poller_suspends_once_per_fetch
  (env : Provider) (req : VideoRequest) (N : nat) (final : Operation)
  (fuel : nat) :
  1 <= N ->
  completesOn env req N final ->
  N <= fuel ->
  exists ops,
    length ops = N /\
    (forall i, i < N -> jobAfter env req i = inr (nth i ops final)) /\
    log (fst (generateTurnaroundVideo_poll env fuel req start)) =
      EvGenerateVideos req :: flat_map pollRound ops /\
    suspensions (log (fst (generateTurnaroundVideo_poll env fuel req start))) =
      repeat 5000%Z N /\
    suspendedMs (log (fst (generateTurnaroundVideo_poll env fuel req start))) =
      (5000 * Z.of_nat N)%Z /\
    statusFetches (log (fst (generateTurnaroundVideo_poll env fuel req start))) =
      N /\
    (forall X, truthy (videoUriOf final) = Some X ->
       snd (generateTurnaroundVideo_poll env fuel req start) = Returned X) /\
    (forall imageDataUrl, videoRequest imageDataUrl = inr req ->
       suspensions
         (log (fst (generateTurnaroundVideo env fuel imageDataUrl start))) =
       repeat 5000%Z N).
Proof.
  intros _ Hdone Hfuel.
  destruct (poll_completes env req N final fuel Hdone Hfuel)
    as (ops & Hlen & Hnth & Hrun).
  exists ops. split; [exact Hlen|]. split; [exact Hnth|].
  assert (Hs : suspensions
                 (log (fst (generateTurnaroundVideo_poll env fuel req start))) =
               repeat 5000%Z N).
  { rewrite Hrun. simpl fst. simpl log.
    rewrite suspensions_pollingLog, Hlen. reflexivity. }
  split; [now rewrite Hrun|].
  split; [exact Hs|].
  split.
  { rewrite Hrun. simpl fst. simpl log.
    rewrite suspendedMs_pollingLog, Hlen. reflexivity. }
  split.
  { rewrite Hrun. simpl fst. simpl log.
    rewrite statusFetches_pollingLog. exact Hlen. }
  split.
  { intros X HX. rewrite Hrun. simpl snd.
    unfold extractVideoUri. now rewrite HX. }
  intros imageDataUrl Hreq.
  destruct (function_extends_poll env fuel imageDataUrl req Hreq)
    as (rest & Hlog & _ & _ & _ & Hrest).
  rewrite Hlog, suspensions_app, Hrest, app_nil_r. exact Hs.
Qed.

Lemma poller_suspends_once_per_fetch_scenario :
  suspensions
    (log (fst (generateTurnaroundVideo_poll scenario 2 pngRequest start))) =
    [5000%Z; 5000%Z] /\
  suspendedMs
    (log (fst (generateTurnaroundVideo_poll scenario 2 pngRequest start))) =
    10000%Z /\
  snd (generateTurnaroundVideo_poll scenario 2 pngRequest start) =
    Returned "X".
Proof.
  destruct (poller_suspends_once_per_fetch scenario pngRequest 2
              (finishedOperation "X") 2
              ltac:(lia) scenario_completes ltac:(lia))
    as (ops & _ & _ & _ & Hs & Hms & _ & HX & _).
  split; [exact Hs|]. split; [exact Hms|].
  apply HX. reflexivity.
Defined.

Lemma emptyOperation_completes :
  completesOn (immediate emptyOperation) pngRequest 0 emptyOperation.
Proof.
  split; [|split; reflexivity]. intros i Hi. lia.
Qed.

(** C3. When the job reports done without a usable result handle, whatever
    its error payload and so in particular when it has none, the poller
    fails with the missing-result error, the [Error] whose message is
    [No video URI in response]: it neither resolves nor goes on polling,
    and the caller of the exported function receives that error. *)
Theorem poller_fails_with_missing_result
  (env : Provider) (req : VideoRequest) (N : nat) (final : Operation)
  (fuel : nat) :
  completesOn env req N final ->
  truthy (videoUriOf final) = None ->
  N <= fuel ->
  snd (generateTurnaroundVideo_poll env fuel req start) = Thrown noVideoUri /\
  statusFetches (log (fst (generateTurnaroundVideo_poll env fuel req start))) =
    N /\
  (forall imageDataUrl, videoRequest imageDataUrl = inr req ->
     generateTurnaroundVideo env fuel imageDataUrl start =
     ({| polls := N;
         log := log (fst (generateTurnaroundVideo_poll env fuel req start))
                  ++ [EvConsoleError noVideoUri] |},
      Thrown noVideoUri)).
Proof.
  intros Hdone Hnone Hfuel.
  destruct (poll_completes env req N final fuel Hdone Hfuel)
    as (ops & Hlen & _ & Hrun).
  rewrite Hrun. simpl fst. simpl snd. simpl log.
  unfold extractVideoUri. rewrite Hnone. simpl settle.
  split; [reflexivity|].
  split; [rewrite statusFetches_pollingLog; exact Hlen|].
  intros imageDataUrl Hreq.
  rewrite (generateTurnaroundVideo_run env fuel _ req Hreq), Hrun.
  unfold extractVideoUri. rewrite Hnone. reflexivity.
Qed.

Lemma poller_fails_with_missing_result_immediate :
  snd (generateTurnaroundVideo_poll (immediate emptyOperation) 0 pngRequest
         start) = Thrown noVideoUri /\
  snd (generateTurnaroundVideo (immediate emptyOperation) 0 pngDataUrl start) =
    Thrown (newError "No video URI in response").
Proof.
  destruct (poller_fails_with_missing_result (immediate emptyOperation)
              pngRequest 0 emptyOperation 0
              emptyOperation_completes eq_refl ltac:(lia))
    as (Hout & _ & Hfn).
  split; [exact Hout|].
  rewrite (Hfn pngDataUrl eq_refl). reflexivity.
Defined.

(** C9. When the job returned by the creation is already done, the poller
    never suspends and never queries the status, whatever the fuel: the
    only event of the stage is the creation, and the stage goes straight
    to the extraction, resolving with the result when there is a usable
    one and failing with the missing-result error otherwise.  The rest of
    the exported function adds no suspension and no status query. *)
Theorem done_on_creation_skips_polling
  (env : Provider) (req : VideoRequest) (final : Operation) (fuel : nat) :
  generateVideos env req = inr final ->
  isDone final = true ->
  generateTurnaroundVideo_poll env fuel req start =
    ({| polls := 0; log := [EvGenerateVideos req] |},
     settle (extractVideoUri final)) /\
  suspensions (log (fst (generateTurnaroundVideo_poll env fuel req start))) =
    [] /\
  statusFetches (log (fst (generateTurnaroundVideo_poll env fuel req start))) =
    0 /\
  (forall X, truthy (videoUriOf final) = Some X ->
     snd (generateTurnaroundVideo_poll env fuel req start) = Returned X) /\
  (truthy (videoUriOf final) = None ->
     snd (generateTurnaroundVideo_poll env fuel req start) =
     Thrown noVideoUri) /\
  (forall imageDataUrl, videoRequest imageDataUrl = inr req ->
     suspensions
       (log (fst (generateTurnaroundVideo env fuel imageDataUrl start))) = [] /\
     statusFetches
       (log (fst (generateTurnaroundVideo env fuel imageDataUrl start))) = 0).
Proof.
  intros Hgen Hdone.
  assert (Hrun : generateTurnaroundVideo_poll env fuel req start =
                 ({| polls := 0; log := [EvGenerateVideos req] |},
                  settle (extractVideoUri final))).
  { unfold generateTurnaroundVideo_poll, afterLoop, bind, callGenerateVideos.
    rewrite Hgen. simpl settle. cbv iota.
    rewrite loop_done by exact Hdone.
    destruct (extractVideoUri final); reflexivity. }
  split; [exact Hrun|].
  split; [now rewrite Hrun|].
  split; [now rewrite Hrun|].
  split; [intros X HX; rewrite Hrun; unfold extractVideoUri; now rewrite HX|].
  split; [intros HX; rewrite Hrun; unfold extractVideoUri; now rewrite HX|].
  intros imageDataUrl Hreq.
  destruct (function_extends_poll env fuel imageDataUrl req Hreq)
    as (rest & Hlog & _ & Hf & _ & Hs).
  rewrite Hlog, Hrun. simpl fst. simpl log.
  rewrite suspensions_app, statusFetches_app, Hs, Hf. split; reflexivity.
Qed.

Lemma done_on_creation_skips_polling_immediate :
  generateTurnaroundVideo_poll (immediate (finishedOperation "X")) 0
    pngRequest start =
  ({| polls := 0; log := [EvGenerateVideos pngRequest] |}, Returned "X").
Proof.
  destruct (done_on_creation_skips_polling (immediate (finishedOperation "X"))
              pngRequest (finishedOperation "X") 0 eq_refl eq_refl)
    as (Hrun & _).
  exact Hrun.
Defined.

(** The five partial shapes are all the ways of having no URI. *)
Lemma videoUriOf_none_shape (operation : Operation) :
  videoUriOf operation = None -> PartialShape operation.
Proof.
  destruct operation as [d e r]. unfold videoUriOf. simpl.
  destruct r as [[vs]|]; [|intros _; constructor]. simpl.
  destruct vs as [[|[v] others]|]; simpl; try (intros _; constructor).
  destruct v as [[u]|]; simpl; intros H; [subst u|]; constructor.
Qed.

(** C10. The extraction is total on partial responses: when the response
    is absent, when its list of generated videos is absent or empty, when
    the first entry has no video, or when that video has no URI, the
    extraction does not crash on the missing field; in each case it yields
    the same missing-result failure, the [Error] with the message
    [No video URI in response]. *)
Theorem extraction_total_on_partial_shapes (operation : Operation) :
  PartialShape operation ->
  videoUriOf operation = None /\
  extractVideoUri operation = inl (newError "No video URI in response") /\
  (forall (env : Provider) (fuel : nat) (w : World),
     isDone operation = true ->
     afterLoop env fuel operation w =
     (w, Thrown (newError "No video URI in response"))).
Proof.
  intros Hshape.
  assert (Hnone : videoUriOf operation = None)
    by (destruct Hshape; reflexivity).
  split; [exact Hnone|].
  assert (Hex : extractVideoUri operation =
                inl (newError "No video URI in response"))
    by (unfold extractVideoUri; now rewrite Hnone).
  split; [exact Hex|].
  intros env fuel w Hdone.
  unfold afterLoop, bind. rewrite loop_done by exact Hdone.
  now rewrite Hex.
Qed.

Lemma extraction_total_on_partial_shapes_empty_list :
  extractVideoUri
    {| done := Some true; error := None;
       response := Some {| generatedVideos := Some [] |} |} =
  inl (newError "No video URI in response").
Proof.
  exact (proj1 (proj2 (extraction_total_on_partial_shapes _
                         (EmptyGeneratedVideos (Some true) None)))).
Defined.

(** ** What every run looks like *)

Section EveryRun.

Variable env : Provider.

(** Whatever the provider answers and however much fuel there is, the
    loop only adds rounds to the log. *)
Lemma loop_log (fuel : nat) :
  forall (operation : Operation) (w : World),
    exists ops,
      fst (generateTurnaroundVideo_loop env fuel operation w) =
      {| polls := polls w + length ops;
         log := log w ++ flat_map pollRound ops |}.
Proof.
  induction fuel as [|fuel IH]; intros operation w.
  - exists []. simpl. rewrite app_nil_r, Nat.add_0_r.
    destruct (isDone operation); now destruct w.
  - simpl. destruct (isDone operation).
    + exists []. simpl. rewrite app_nil_r, Nat.add_0_r. now destruct w.
    + unfold bind, sleep, emit, record, callGetVideosOperation. simpl.
      destruct (getVideosOperation env (polls w) operation) as [e|o1]; simpl.
      * exists [operation]. simpl.
        rewrite Nat.add_1_r, <- app_assoc. reflexivity.
      * destruct (IH o1
                    {| polls := S (polls w);
                       log := (log w ++ [EvSleep pollIntervalMs])
                                ++ [EvGetVideosOperation operation] |})
          as (ops & Hops).
        exists (operation :: ops). rewrite Hops. simpl.
        rewrite Nat.add_succ_r, <- !app_assoc. reflexivity.
Qed.

Lemma poll_log (fuel : nat) (req : VideoRequest) :
  exists ops,
    fst (generateTurnaroundVideo_poll env fuel req start) =
    {| polls := length ops; log := pollingLog req ops |}.
Proof.
  unfold generateTurnaroundVideo_poll, bind, callGenerateVideos.
  destruct (generateVideos env req) as [e|o0]; simpl settle; cbv iota.
  - exists []. reflexivity.
  - destruct (loop_log fuel o0 (record (EvGenerateVideos req) start))
      as (ops & Hops).
    exists ops. unfold afterLoop, bind.
    destruct (generateTurnaroundVideo_loop env fuel o0
                (record (EvGenerateVideos req) start)) as [w [o|e|]];
      simpl in Hops; subst w.
    + destruct (extractVideoUri o); reflexivity.
    + reflexivity.
    + reflexivity.
Qed.

(** The log of the exported function: nothing but the report of the
    [TypeError] when the data URL has no colon, and otherwise the log of
    the polling stage followed by events that are neither creations, nor
    status queries, nor suspensions. *)
Lemma function_log (fuel : nat) (imageDataUrl : string) :
  exists l rest,
    log (fst (generateTurnaroundVideo env fuel imageDataUrl start)) =
      l ++ rest /\
    (l = [] \/ exists req ops, l = pollingLog req ops) /\
    statusFetches rest = 0 /\ creations rest = 0 /\ suspensions rest = [].
Proof.
  destruct (videoRequest imageDataUrl) as [e|req] eqn:Hreq.
  - exists [], [EvConsoleError e].
    unfold generateTurnaroundVideo, generateTurnaroundVideo_try, tryCatch.
    rewrite Hreq. simpl. repeat split; try reflexivity. now left.
  - destruct (function_extends_poll env fuel imageDataUrl req Hreq)
      as (rest & Hlog & _ & Hf & Hc & Hs).
    destruct (poll_log fuel req) as (ops & Hops).
    exists (pollingLog req ops), rest.
    rewrite Hlog, Hops. simpl.
    repeat split; try assumption. right. now exists req, ops.
Qed.

End EveryRun.

(** ** Errors *)

Lemma flaky_fails (e : JsError) : failsOn (flaky e) pngRequest 2 e.
Proof.
  split; [|reflexivity].
  intros i Hi. exists pendingOperation.
  destruct i as [|[|i]]; [split; reflexivity..|lia].
Qed.

(** C4, as the claim states it, fails on the code.  A creation that
    raises an [Error] with an empty message makes the exported function
    fail with the message [Failed to generate video.], and a status query
    that raises the provider's [ApiError] makes it fail with a plain
    [Error]: in neither case is the failure the error that was raised. *)
Lemma failure_is_not_the_raised_error :
  failsOn (refusing silent) pngRequest 0 silent /\
  generateTurnaroundVideo (refusing silent) 0 pngDataUrl start =
    ({| polls := 0;
        log := [EvGenerateVideos pngRequest; EvConsoleError silent] |},
     Thrown (newError "Failed to generate video.")) /\
  newError "Failed to generate video." <> silent /\
  failsOn (flaky notFound) pngRequest 2 notFound /\
  snd (generateTurnaroundVideo (flaky notFound) 2 pngDataUrl start) =
    Thrown (newError "Requested entity was not found.") /\
  newError "Requested entity was not found." <> notFound.
Proof.
  split.
  { split; [|reflexivity]. intros i Hi. lia. }
  split; [reflexivity|].
  split; [discriminate|].
  split; [apply flaky_fails|].
  split; [reflexivity|discriminate].
Qed.

(** C4, amended.  When the creation or a status query raises [e], the
    poller stops at once: the polling stage ends with [e] right after the
    failing call, the job was created once, every earlier status query was
    made once and none is made afterwards (no retry).  The exported
    function then reports [e] on the console and fails with a new [Error]
    that carries the message of [e], or [Failed to generate video.] when
    [e] has an empty message or none. *)
Theorem poller_stops_on_first_error
  (env : Provider) (req : VideoRequest) (n : nat) (e : JsError)
  (fuel : nat) (imageDataUrl : string) :
  failsOn env req n e ->
  n <= fuel ->
  videoRequest imageDataUrl = inr req ->
  exists ops,
    length ops = n /\
    (forall i, i < n ->
       exists o, jobAfter env req i = inr o /\ nth_error ops i = Some o) /\
    generateTurnaroundVideo_poll env fuel req start =
      ({| polls := n; log := pollingLog req ops |}, Thrown e) /\
    generateTurnaroundVideo env fuel imageDataUrl start =
      ({| polls := n; log := pollingLog req ops ++ [EvConsoleError e] |},
       Thrown (newError (orElse (message e) "Failed to generate video."))) /\
    creations
      (log (fst (generateTurnaroundVideo env fuel imageDataUrl start))) = 1 /\
    statusFetches
      (log (fst (generateTurnaroundVideo env fuel imageDataUrl start))) = n.
Proof.
  intros Hfail Hfuel Hreq.
  destruct (poll_fails env req n e fuel Hfail Hfuel)
    as (ops & Hlen & Hnth & Hrun).
  exists ops. split; [exact Hlen|]. split; [exact Hnth|].
  split; [exact Hrun|].
  assert (Hfn : generateTurnaroundVideo env fuel imageDataUrl start =
                ({| polls := n;
                    log := pollingLog req ops ++ [EvConsoleError e] |},
                 Thrown (newError
                           (orElse (message e) "Failed to generate video.")))).
  { rewrite (generateTurnaroundVideo_run env fuel _ req Hreq), Hrun.
    reflexivity. }
  split; [exact Hfn|].
  rewrite Hfn. cbn [fst log].
  rewrite creations_app, statusFetches_app.
  rewrite creations_pollingLog, statusFetches_pollingLog, Hlen.
  split; [reflexivity|].
  change (statusFetches [EvConsoleError e]) with 0. lia.
Qed.

Lemma poller_stops_on_first_error_flaky :
  snd (generateTurnaroundVideo (flaky notFound) 2 pngDataUrl start) =
    Thrown (newError "Requested entity was not found.") /\
  creations
    (log (fst (generateTurnaroundVideo (flaky notFound) 2 pngDataUrl start))) =
    1 /\
  statusFetches
    (log (fst (generateTurnaroundVideo (flaky notFound) 2 pngDataUrl start))) =
    2.
Proof.
  destruct (poller_stops_on_first_error (flaky notFound) pngRequest 2
              notFound 2 pngDataUrl (flaky_fails notFound) ltac:(lia) eq_refl)
    as (ops & _ & _ & _ & Hfn & Hc & Hf).
  split; [rewrite Hfn; reflexivity|].
  split; [exact Hc|exact Hf].
Defined.

(** ** Time and termination *)

Section Termination.

Variable env : Provider.

Lemma stillPolling_ended (req : VideoRequest) (n : nat) :
  stillPolling env req n <-> (forall i, i < n -> ended env req i = false).
Proof.
  unfold stillPolling, ended. split; intros H i Hi.
  - destruct (H i Hi) as (o & -> & Hd). exact Hd.
  - specialize (H i Hi).
    destruct (jobAfter env req i) as [e|o]; [discriminate|].
    now exists o.
Qed.

(** A job that ends at some point ends at a first point. *)
Lemma first_end (req : VideoRequest) (k : nat) :
  ended env req k = true ->
  exists n, n <= k /\ stillPolling env req n /\ ended env req n = true.
Proof.
  intros Hk.
  assert (Hsearch : forall m,
             (forall i, i < m -> ended env req i = false) \/
             (exists n, n < m /\
                (forall i, i < n -> ended env req i = false) /\
                ended env req n = true)).
  { induction m as [|m [IH|(n & Hn & Hbefore & Hend)]].
    - left. intros i Hi. lia.
    - destruct (ended env req m) eqn:Hm.
      + right. exists m. repeat split; [lia|exact IH|exact Hm].
      + left. intros i Hi.
        destruct (Nat.eq_dec i m) as [->|Hne]; [exact Hm|apply IH; lia].
    - right. exists n. repeat split; [lia|exact Hbefore|exact Hend]. }
  destruct (Hsearch k) as [Hnone|(n & Hn & Hbefore & Hend)].
  - exists k. split; [lia|]. split; [|exact Hk].
    now apply stillPolling_ended.
  - exists n. split; [lia|]. split; [|exact Hend].
    now apply stillPolling_ended.
Qed.

(** A stage that has ended does the same with more fuel. *)
Lemma poll_more_fuel (fuel extra : nat) (req : VideoRequest) :
  snd (generateTurnaroundVideo_poll env fuel req start) <> Pending ->
  generateTurnaroundVideo_poll env (fuel + extra) req start =
  generateTurnaroundVideo_poll env fuel req start.
Proof.
  unfold generateTurnaroundVideo_poll, bind, callGenerateVideos.
  destruct (generateVideos env req) as [e|o0]; simpl settle; cbv iota;
    [reflexivity|].
  intros Hend. unfold afterLoop, bind in *.
  rewrite loop_more_fuel; [reflexivity|].
  intros Hp.
  destruct (generateTurnaroundVideo_loop env fuel o0
              (record (EvGenerateVideos req) start)) as [w [o|e|]];
    simpl in Hp; try discriminate.
  now apply Hend.
Qed.

(** The stage ends as soon as the fuel covers the first end of the job. *)
Lemma poll_ends (req : VideoRequest) (n fuel : nat) :
  stillPolling env req n ->
  ended env req n = true ->
  n <= fuel ->
  snd (generateTurnaroundVideo_poll env fuel req start) <> Pending.
Proof.
  intros Hnot Hend Hfuel. unfold ended in Hend.
  destruct (jobAfter env req n) as [e|o] eqn:Hjob.
  - destruct (poll_fails env req n e fuel (conj Hnot Hjob) Hfuel)
      as (ops & _ & _ & Hrun).
    rewrite Hrun. discriminate.
  - destruct (poll_completes env req n o fuel
                (conj Hnot (conj Hjob Hend)) Hfuel)
      as (ops & _ & _ & Hrun).
    rewrite Hrun. simpl. destruct (extractVideoUri o); discriminate.
Qed.

(** The function ends exactly when its polling stage does. *)
Lemma function_pending_iff (fuel : nat) (imageDataUrl : string)
  (req : VideoRequest) :
  videoRequest imageDataUrl = inr req ->
  (snd (generateTurnaroundVideo env fuel imageDataUrl start) = Pending <->
   snd (generateTurnaroundVideo_poll env fuel req start) = Pending).
Proof.
  intros Hreq. rewrite (generateTurnaroundVideo_run env fuel _ req Hreq).
  destruct (generateTurnaroundVideo_poll env fuel req start) as [w [u|e|]].
  - destruct (download_run env u w) as (rest & out & Hrun & _ & _ & _ & Hout & _).
    rewrite Hrun. simpl. split; [intros H; now contradiction Hout|discriminate].
  - simpl. split; discriminate.
  - simpl. split; reflexivity.
Qed.

End Termination.

Lemma scenario_ends : ended scenario pngRequest 2 = true.
Proof. reflexivity. Qed.

Lemma stuck_never_ends (k : nat) : ended stuck pngRequest k = false.
Proof.
  assert (H : jobAfter stuck pngRequest k = inr pendingOperation).
  { induction k as [|k IH]; [reflexivity|].
    rewrite jobAfter_S, IH. reflexivity. }
  unfold ended. now rewrite H.
Qed.

(** C5, as the claim states it, fails on the code.  In the scenario the
    job completes on the second status query; with a limit of 7000 ms,
    smaller than twice the interval, the claim asks for a timeout failure
    before that query.  The function makes both queries, stays suspended
    for 10000 ms, more than the limit, and resolves. *)
Lemma no_timeout_in_scenario :
  (7000 < 2 * 5000)%Z /\
  completesOn scenario pngRequest 2 (finishedOperation "X") /\
  generateTurnaroundVideo scenario 2 pngDataUrl start =
    ({| polls := 2;
        log := [ EvGenerateVideos pngRequest;
                 EvSleep 5000; EvGetVideosOperation pendingOperation;
                 EvSleep 5000; EvGetVideosOperation pendingOperation;
                 EvFetch "X&key=KEY"; EvBlob;
                 EvCreateObjectURL "mp4-bytes" ] |},
     Returned "blob:mp4-bytes") /\
  snd (generateTurnaroundVideo_poll scenario 2 pngRequest start) =
    Returned "X" /\
  statusFetches
    (log (fst (generateTurnaroundVideo scenario 2 pngDataUrl start))) = 2 /\
  (7000 <
   suspendedMs
     (log (fst (generateTurnaroundVideo scenario 2 pngDataUrl start))))%Z.
Proof.
  split; [lia|].
  split; [exact scenario_completes|].
  split; [reflexivity|].
  split; [reflexivity|].
  split; [reflexivity|].
  vm_compute. reflexivity.
Qed.

(** C5, amended.  The function has no time limit and no timeout failure:
    for a job that completes on status query [N], and for any limit
    [timeoutMs] below [N] times the interval of 5000 ms, the poller still
    makes all [N] queries, its suspended time goes past the limit to
    [5000 * N] ms, and it ends as the extraction from the finished job
    decides, resolving with the result or failing for a missing result. *)
Theorem poller_has_no_timeout
  (env : Provider) (req : VideoRequest) (N : nat) (final : Operation)
  (fuel : nat) (timeoutMs : Z) :
  completesOn env req N final ->
  N <= fuel ->
  (timeoutMs < 5000 * Z.of_nat N)%Z ->
  statusFetches (log (fst (generateTurnaroundVideo_poll env fuel req start))) =
    N /\
  suspendedMs (log (fst (generateTurnaroundVideo_poll env fuel req start))) =
    (5000 * Z.of_nat N)%Z /\
  (timeoutMs <
   suspendedMs (log (fst (generateTurnaroundVideo_poll env fuel req start))))%Z /\
  snd (generateTurnaroundVideo_poll env fuel req start) =
    settle (extractVideoUri final) /\
  (snd (generateTurnaroundVideo_poll env fuel req start) =
     Thrown noVideoUri \/
   exists X, snd (generateTurnaroundVideo_poll env fuel req start) =
             Returned X).
Proof.
  intros Hdone Hfuel Hlimit.
  destruct (poll_completes env req N final fuel Hdone Hfuel)
    as (ops & Hlen & _ & Hrun).
  rewrite Hrun. cbn [fst snd log].
  rewrite statusFetches_pollingLog, suspendedMs_pollingLog, Hlen.
  change pollIntervalMs with 5000%Z.
  repeat split; try reflexivity; try exact Hlimit.
  unfold extractVideoUri.
  destruct (truthy (videoUriOf final)) as [X|]; [right; now exists X|now left].
Qed.

Lemma poller_has_no_timeout_scenario :
  statusFetches
    (log (fst (generateTurnaroundVideo_poll scenario 2 pngRequest start))) =
    2 /\
  (7000 <
   suspendedMs
     (log (fst (generateTurnaroundVideo_poll scenario 2 pngRequest start))))%Z /\
  snd (generateTurnaroundVideo_poll scenario 2 pngRequest start) =
    Returned "X".
Proof.
  destruct (poller_has_no_timeout scenario pngRequest 2
              (finishedOperation "X") 2 7000%Z
              scenario_completes ltac:(lia) ltac:(lia))
    as (Hn & _ & Hlate & Hout & _).
  split; [exact Hn|]. split; [exact Hlate|exact Hout].
Defined.

(** C6. The poller terminates, resolving or failing, whenever the job
    comes to an end, that is whenever the creation or some status query
    reports done or raises: from some amount of fuel on, every run of the
    function ends, and always in the same way.  When the job is created
    not done and every status query returns not done without an error,
    the function never terminates: it is still polling whatever the fuel,
    having neither a timeout nor a cancellation to leave the loop by. *)
Theorem poller_terminates_iff_job_ends
  (env : Provider) (req : VideoRequest) (imageDataUrl : string) :
  videoRequest imageDataUrl = inr req ->
  ((exists k, ended env req k = true) ->
   exists n result,
     snd result <> Pending /\
     forall fuel, n <= fuel ->
       generateTurnaroundVideo env fuel imageDataUrl start = result /\
       snd (generateTurnaroundVideo_poll env fuel req start) <> Pending) /\
  ((forall k, ended env req k = false) ->
   forall fuel,
     snd (generateTurnaroundVideo env fuel imageDataUrl start) = Pending /\
     snd (generateTurnaroundVideo_poll env fuel req start) = Pending).
Proof.
  intros Hreq. split.
  - intros (k & Hk).
    destruct (first_end env req k Hk) as (n & _ & Hnot & Hend).
    exists n, (generateTurnaroundVideo env n imageDataUrl start).
    assert (Hstage : forall fuel, n <= fuel ->
               snd (generateTurnaroundVideo_poll env fuel req start)
               <> Pending)
      by (intros fuel Hfuel; now apply (poll_ends env req n fuel)).
    split.
    + intros Hp. apply (Hstage n (le_n n)).
      now apply (function_pending_iff env n imageDataUrl req Hreq).
    + intros fuel Hfuel. split; [|now apply Hstage].
      rewrite !(generateTurnaroundVideo_run env _ _ req Hreq).
      replace fuel with (n + (fuel - n)) by lia.
      rewrite poll_more_fuel by (apply Hstage; lia). reflexivity.
  - intros Hnever fuel.
    assert (Hstage : snd (generateTurnaroundVideo_poll env fuel req start)
                     = Pending).
    { destruct (poll_pending env req fuel) as (ops & _ & Hrun).
      - apply stillPolling_ended. intros i _. apply Hnever.
      - now rewrite Hrun. }
    split; [|exact Hstage].
    now apply (function_pending_iff env fuel imageDataUrl req Hreq).
Qed.

Lemma poller_terminates_iff_job_ends_samples :
  (exists n result,
     snd result <> Pending /\
     forall fuel, n <= fuel ->
       generateTurnaroundVideo scenario fuel pngDataUrl start = result /\
       snd (generateTurnaroundVideo_poll scenario fuel pngRequest start)
       <> Pending) /\
  (forall fuel,
     snd (generateTurnaroundVideo stuck fuel pngDataUrl start) = Pending /\
     snd (generateTurnaroundVideo_poll stuck fuel pngRequest start) = Pending).
Proof.
  split.
  - apply (proj1 (poller_terminates_iff_job_ends scenario pngRequest
                    pngDataUrl eq_refl)).
    exists 2. exact scenario_ends.
  - apply (proj2 (poller_terminates_iff_job_ends stuck pngRequest
                    pngDataUrl eq_refl)).
    exact stuck_never_ends.
Defined.

(** C7. Every suspension lasts exactly 5000 ms.  In every run of the
    function, for every provider, every data URL and every amount of fuel
    (so also in runs that are still polling), the suspensions are one per
    status query, each placed right before its query, and each of 5000 ms:
    the interval is the same constant on every iteration and in every poll
    operation. *)
Theorem every_suspension_lasts_5000
  (env : Provider) (fuel : nat) (imageDataUrl : string) :
  pollIntervalMs = 5000%Z /\
  suspensions (log (fst (generateTurnaroundVideo env fuel imageDataUrl start))) =
    repeat 5000%Z
      (statusFetches
         (log (fst (generateTurnaroundVideo env fuel imageDataUrl start)))) /\
  Forall (fun ms => ms = 5000%Z)
    (suspensions
       (log (fst (generateTurnaroundVideo env fuel imageDataUrl start)))) /\
  (forall req, exists ops,
     log (fst (generateTurnaroundVideo_poll env fuel req start)) =
     EvGenerateVideos req ::
       flat_map (fun o => [EvSleep 5000; EvGetVideosOperation o]) ops).
Proof.
  split; [reflexivity|].
  assert (Hs : suspensions
                 (log (fst (generateTurnaroundVideo env fuel imageDataUrl
                              start))) =
               repeat 5000%Z
                 (statusFetches
                    (log (fst (generateTurnaroundVideo env fuel imageDataUrl
                                 start))))).
  { destruct (function_log env fuel imageDataUrl)
      as (l & rest & Hlog & Hl & Hf & _ & Hs).
    rewrite Hlog, suspensions_app, statusFetches_app, Hs, Hf.
    rewrite app_nil_r, Nat.add_0_r.
    destruct Hl as [->|(req & ops & ->)]; [reflexivity|].
    now rewrite suspensions_pollingLog, statusFetches_pollingLog. }
  split; [exact Hs|].
  split.
  - rewrite Hs. apply Forall_forall. intros ms Hin.
    now apply repeat_spec in Hin.
  - intros req. destruct (poll_log env fuel req) as (ops & Hops).
    exists ops. now rewrite Hops.
Qed.

(** * Beyond the polling loop *)

(** ** Splitting strings *)

Lemma split_nonempty (sep : ascii) (s : string) : split sep s <> [].
Proof.
  induction s as [|c s IH]; simpl; [discriminate|].
  destruct (Ascii.eqb c sep); [discriminate|].
  destruct (split sep s); discriminate.
Qed.

(** Up to the first separator. *)
Lemma split_at (sep : ascii) (a b : string) :
  Image.occurs sep a = false ->
  split sep (a ++ String sep b)%string = a :: split sep b.
Proof.
  induction a as [|c a IH]; simpl; intros Ha.
  - now rewrite Ascii.eqb_refl.
  - apply orb_false_iff in Ha. destruct Ha as [Hc Ha].
    rewrite Hc, (IH Ha). reflexivity.
Qed.

Lemma split_absent (sep : ascii) (s : string) :
  Image.occurs sep s = false -> split sep s = [s].
Proof.
  induction s as [|c s IH]; simpl; intros Hs; [reflexivity|].
  apply orb_false_iff in Hs. destruct Hs as [Hc Hs].
  rewrite Hc, (IH Hs). reflexivity.
Qed.

Lemma append_empty (s : string) : (s ++ "")%string = s.
Proof. induction s as [|c s IH]; simpl; [reflexivity|now rewrite IH]. Qed.

(** The first piece of a string that is cut at its first comma, if any. *)
Lemma split_header (sep : ascii) (header rest : string) :
  Image.occurs sep header = false ->
  rest = EmptyString \/ (exists r, rest = String sep r) ->
  hd EmptyString (split sep (header ++ rest)%string) = header /\
  nth_error (split sep (header ++ rest)%string) 1 =
    match rest with
    | EmptyString => None
    | String _ r => Some (hd EmptyString (split sep r))
    end.
Proof.
  intros Hh [->|(r & ->)].
  - rewrite append_empty, (split_absent sep header Hh). split; reflexivity.
  - rewrite (split_at sep header r Hh). simpl. split; [reflexivity|].
    destruct (split sep r) eqn:Hr; [now apply split_nonempty in Hr|].
    reflexivity.
Qed.

Lemma second_piece (sep : ascii) (s : string) :
  nth_error (split sep s) 1 = None <-> Image.occurs sep s = false.
Proof.
  split.
  - induction s as [|c s IH]; simpl; [reflexivity|].
    destruct (Ascii.eqb c sep) eqn:Hc.
    + simpl. destruct (split sep s) eqn:Hs; [now apply split_nonempty in Hs|].
      discriminate.
    + destruct (split sep s) as [|h t] eqn:Hs;
        [now apply split_nonempty in Hs|].
      simpl. intros Ht. apply IH. exact Ht.
  - intros Hs. now rewrite (split_absent sep s Hs).
Qed.

(** The three lines that read a data URL are the same in both functions. *)
Lemma videoRequest_dataUrlParts (imageDataUrl : string) :
  videoRequest imageDataUrl =
  match Image.dataUrlParts imageDataUrl with
  | inl e => inl e
  | inr (base64Data, mime) =>
      inr {| model := "veo-3.1-fast-generate-preview";
             prompt := turntablePrompt;
             imageBytes := base64Data;
             mimeType := mime;
             numberOfVideos := 1;
             resolution := "720p";
             aspectRatio := "16:9" |}
  end.
Proof.
  unfold videoRequest, Image.dataUrlParts.
  destruct (nth_error (split ":" (hd EmptyString (split "," imageDataUrl))) 1);
    reflexivity.
Qed.

(** A data URL that starts with [data:] is always read without error. *)
Lemma dataUrlParts_data_prefix (s : string) :
  exists parts, Image.dataUrlParts ("data:" ++ s)%string = inr parts.
Proof.
  unfold Image.dataUrlParts. simpl.
  destruct (split "," s) as [|h t] eqn:Hs; [now apply split_nonempty in Hs|].
  simpl.
  destruct (split ":" h) as [|h' t'] eqn:Hh; [now apply split_nonempty in Hh|].
  simpl. eexists. reflexivity.
Qed.

(** ** The video function outside its loop *)

Lemma orElse_nonempty (a : option string) (b : string) :
  b <> EmptyString -> orElse a b <> EmptyString.
Proof.
  intros Hb. unfold orElse, truthy.
  destruct a as [[|c s]|]; try exact Hb. discriminate.
Qed.

(** X1. A data URL is cut at its first comma.  With the API key set (line
    268 builds the client from it), when no colon occurs before that
    comma the function fails before it creates any job: the only thing it
    does is report the [TypeError] of line 272, and the caller receives an
    [Error] with the message of that [TypeError].  When a colon occurs
    there, the URL is accepted and the first call is the creation of the
    job. *)
Theorem data_url_without_colon_creates_no_job
  (env : Provider) (key : string) (fuel : nat) (header rest : string) :
  truthy (API_KEY env) = Some key ->
  Image.occurs "," header = false ->
  rest = EmptyString \/ (exists r, rest = String "," r) ->
  (Image.occurs ":" header = false ->
   exists m,
     message typeErrorSplit = Some m /\
     generateTurnaroundVideo env fuel (header ++ rest)%string start =
     ({| polls := 0; log := [EvConsoleError typeErrorSplit] |},
      Thrown (newError m))) /\
  (Image.occurs ":" header = true ->
   exists req,
     videoRequest (header ++ rest)%string = inr req /\
     hd_error
       (log (fst (generateTurnaroundVideo env fuel (header ++ rest)%string
                    start))) =
     Some (EvGenerateVideos req)).
Proof.
  intros _ Hcomma Hrest.
  destruct (split_header "," header rest Hcomma Hrest) as (Hhd & _).
  split; intros Hcolon.
  - eexists. split; [reflexivity|].
    unfold generateTurnaroundVideo, generateTurnaroundVideo_try, tryCatch,
      videoRequest.
    rewrite Hhd.
    rewrite (proj2 (second_piece ":" header) Hcolon). reflexivity.
  - assert (Hreq : exists req, videoRequest (header ++ rest)%string = inr req).
    { unfold videoRequest. rewrite Hhd.
      destruct (nth_error (split ":" header) 1) eqn:Hn.
      - eexists. reflexivity.
      - apply second_piece in Hn. congruence. }
    destruct Hreq as (req & Hreq). exists req. split; [exact Hreq|].
    destruct (function_extends_poll env fuel _ req Hreq)
      as (more & Hlog & _).
    destruct (poll_log env fuel req) as (ops & Hops).
    rewrite Hlog, Hops. reflexivity.
Qed.

Lemma data_url_without_colon_creates_no_job_sample :
  exists m,
    message typeErrorSplit = Some m /\
    generateTurnaroundVideo scenario 5 "iVBORw0KGgo=" start =
    ({| polls := 0; log := [EvConsoleError typeErrorSplit] |},
     Thrown (newError m)).
Proof.
  exact (proj1 (data_url_without_colon_creates_no_job scenario "KEY" 5
                  "iVBORw0KGgo=" "" eq_refl eq_refl (or_introl eq_refl))
           eq_refl).
Defined.

(** X2. Whatever goes wrong, the error that the video function throws is
    a plain [Error] with a message that is not empty, so the fallback
    [err.message || ...] of the caller never applies to it. *)
Theorem video_failure_has_a_message
  (env : Provider) (fuel : nat) (imageDataUrl : string)
  (w : World) (e : JsError) :
  generateTurnaroundVideo env fuel imageDataUrl start = (w, Thrown e) ->
  name e = "Error" /\
  exists m,
    message e = Some m /\ m <> EmptyString /\
    forall fallback, orElse (message e) fallback = m.
Proof.
  unfold generateTurnaroundVideo, tryCatch, handler, bind, consoleError,
    emit, throw.
  destruct (generateTurnaroundVideo_try env fuel imageDataUrl start)
    as [w0 [u|e0|]]; intros H; try discriminate.
  injection H as _ <-.
  split; [reflexivity|].
  exists (orElse (message e0) "Failed to generate video.").
  split; [reflexivity|].
  assert (Hne : orElse (message e0) "Failed to generate video."
                <> EmptyString) by (apply orElse_nonempty; discriminate).
  split; [exact Hne|].
  intros fallback. unfold rethrown, newError. cbn [message].
  destruct (orElse (message e0) "Failed to generate video.") as [|c s];
    [now contradiction Hne|reflexivity].
Qed.

Lemma video_failure_has_a_message_sample :
  exists m,
    message (newError "Failed to generate video.") = Some m /\
    m <> EmptyString /\
    forall fallback,
      orElse (message (newError "Failed to generate video.")) fallback = m.
Proof.
  exact (proj2 (video_failure_has_a_message (refusing silent) 0 pngDataUrl
                  {| polls := 0;
                     log := [EvGenerateVideos pngRequest;
                             EvConsoleError silent] |}
                  (newError "Failed to generate video.") eq_refl)).
Defined.

Lemma refusedDownload_completes :
  completesOn refusedDownload pngRequest 0 (finishedOperation "X").
Proof.
  split; [|split; reflexivity]. intros i Hi. lia.
Qed.

(** X3. When the job has finished with a usable result but the download
    of the video is answered with a status that is not ok, the function
    fails with [Failed to download video:] followed by the status text.
    It asks for the download once, right after the polling, and polls no
    more. *)
Theorem refused_download_fails
  (env : Provider) (req : VideoRequest) (N : nat) (final : Operation)
  (X : string) (fuel : nat) (imageDataUrl : string) (r : FetchResponse) :
  completesOn env req N final ->
  truthy (videoUriOf final) = Some X ->
  N <= fuel ->
  videoRequest imageDataUrl = inr req ->
  fetch env (downloadUrl env X) = inr r ->
  ok r = false ->
  exists ops,
    length ops = N /\
    generateTurnaroundVideo env fuel imageDataUrl start =
    ({| polls := N;
        log := pollingLog req ops ++
               [ EvFetch (downloadUrl env X);
                 EvConsoleError
                   (newError
                      ("Failed to download video: " ++ statusText r)%string) ]
     |},
     Thrown (newError ("Failed to download video: " ++ statusText r)%string)).
Proof.
  intros Hdone HX Hfuel Hreq Hfetch Hok.
  destruct (poll_completes env req N final fuel Hdone Hfuel)
    as (ops & Hlen & _ & Hrun).
  exists ops. split; [exact Hlen|].
  rewrite (generateTurnaroundVideo_run env fuel _ req Hreq), Hrun.
  unfold extractVideoUri. rewrite HX. simpl settle. cbv iota.
  unfold tryCatch, generateTurnaroundVideo_download, bind, callFetch.
  rewrite Hfetch. simpl settle. cbv iota. rewrite Hok.
  unfold throw, handler, bind, consoleError, emit, record. simpl.
  rewrite <- app_assoc. reflexivity.
Qed.

Lemma refused_download_fails_sample :
  snd (generateTurnaroundVideo refusedDownload 0 pngDataUrl start) =
  Thrown (newError "Failed to download video: Forbidden").
Proof.
  destruct (refused_download_fails refusedDownload pngRequest 0
              (finishedOperation "X") "X" 0 pngDataUrl forbidden
              refusedDownload_completes eq_refl ltac:(lia)
              eq_refl eq_refl eq_refl)
    as (ops & _ & Hrun).
  rewrite Hrun. reflexivity.
Defined.

(** ** From a generated image to a video request *)

(** X5. The data URL that [generateView] builds from an image is read
    back by the video function: for a MIME type without comma, colon or
    semicolon and a payload without comma, the request of the video job
    carries that MIME type and that payload. *)
Theorem image_data_url_round_trip (d : Image.InlineData) (mime payload : string) :
  truthy (Image.mimeType d) = Some mime ->
  Image.data d = Some payload ->
  Image.occurs "," mime = false ->
  Image.occurs ":" mime = false ->
  Image.occurs ";" mime = false ->
  Image.occurs "," payload = false ->
  Image.dataUrlParts (Image.imageDataUrl d) = inr (Some payload, mime) /\
  videoRequest (Image.imageDataUrl d) =
    inr {| model := "veo-3.1-fast-generate-preview";
           prompt := turntablePrompt;
           imageBytes := Some payload;
           mimeType := mime;
           numberOfVideos := 1;
           resolution := "720p";
           aspectRatio := "16:9" |}.
Proof.
  intros Hmime Hdata Hc1 Hc2 Hc3 Hc4.
  assert (Hparts : Image.dataUrlParts (Image.imageDataUrl d) = inr (Some payload, mime)).
  { unfold Image.imageDataUrl, orElse. rewrite Hmime, Hdata. simpl render.
    unfold Image.dataUrlParts.
    assert (Hhead : Image.occurs "," ("data:" ++ mime ++ ";base64")%string = false).
    { simpl. clear - Hc1. induction mime as [|c m IH]; simpl in *;
        [reflexivity|].
      apply orb_false_iff in Hc1. destruct Hc1 as [-> Hm]. now apply IH. }
    replace ("data:" ++ mime ++ ";base64," ++ payload)%string
      with (("data:" ++ mime ++ ";base64") ++ String "," payload)%string.
    2:{ simpl. do 5 f_equal. clear. induction mime as [|c m IH]; simpl;
          [reflexivity|now rewrite IH]. }
    rewrite (split_at "," _ payload Hhead), (split_absent "," payload Hc4).
    cbn [hd nth_error].
    change ("data:" ++ mime ++ ";base64")%string
      with ("data" ++ String ":" (mime ++ ";base64"))%string.
    rewrite (split_at ":" "data" _ eq_refl).
    assert (Hm : Image.occurs ":" (mime ++ ";base64")%string = false).
    { clear - Hc2. induction mime as [|c m IH]; simpl in *; [reflexivity|].
      apply orb_false_iff in Hc2. destruct Hc2 as [-> Hm]. now apply IH. }
    rewrite (split_absent ":" _ Hm). cbn [nth_error].
    rewrite (split_at ";" mime "base64" Hc3). reflexivity. }
  split; [exact Hparts|].
  rewrite videoRequest_dataUrlParts, Hparts. reflexivity.
Qed.

Lemma image_data_url_round_trip_sample :
  Image.dataUrlParts "data:image/jpeg;base64,QUJD" = inr (Some "QUJD", "image/jpeg").
Proof.
  exact (proj1 (image_data_url_round_trip
                  {| Image.data := Some "QUJD";
                     Image.mimeType := Some "image/jpeg" |}
                  "image/jpeg" "QUJD"
                  eq_refl eq_refl eq_refl eq_refl eq_refl eq_refl)).
Defined.

(** ** Reading a file and building a view *)

Section Views.

Import Image.

Variable Json : Type.
Variable studio : Studio Json.

(** X4. [fileToBase64] gives what stands between the first and the second
    comma of the data URL that the reader produced: the payload alone when
    the reader gave a prefix, a comma and a payload without commas.  When
    the reader's result has no comma the function still resolves, with
    [undefined]; only an error of the reader makes it reject. *)
Theorem fileToBase64_strips_the_prefix (file : File) (result : string) :
  readAsDataURL file = Some result ->
  (forall header payload,
     occurs "," header = false -> occurs "," payload = false ->
     result = (header ++ String "," payload)%string ->
     fileToBase64 file = ([EvReadAsDataURL file], Returned (Some payload))) /\
  (occurs "," result = false ->
   fileToBase64 file = ([EvReadAsDataURL file], Returned None)) /\
  (exists base64, fileToBase64 file = ([EvReadAsDataURL file], Returned base64)).
Proof.
  intros Hread. unfold fileToBase64, call. rewrite Hread. simpl settle.
  split; [|split].
  - intros header payload Hh Hp ->.
    rewrite (split_at "," header payload Hh), (split_absent "," payload Hp).
    reflexivity.
  - intros Hno. rewrite (split_absent "," result Hno). reflexivity.
  - eexists. reflexivity.
Qed.

Lemma fileToBase64_strips_the_prefix_sample :
  fileToBase64 pngFile =
  ([EvReadAsDataURL pngFile], Returned (Some "iVBORw0KGgo=")).
Proof.
  exact (proj1 (fileToBase64_strips_the_prefix pngFile
                  "data:image/png;base64,iVBORw0KGgo=" eq_refl)
           "data:image/png;base64" "iVBORw0KGgo=" eq_refl eq_refl eq_refl).
Defined.

(** What [generateView] returns is a data URL built from inline data. *)
Lemma generateView_returns_data_url
  (file : File) (viewType : ViewType) (poseConfig : option PoseConfig)
  (backgroundConfig : option BackgroundConfig)
  (resolution : option ImageResolution) (customPrompt : option string)
  (fidelity : option Z) (url : string) :
  snd (generateView Json studio file viewType poseConfig backgroundConfig
         resolution customPrompt fidelity) = Returned url ->
  exists d, url = imageDataUrl d.
Proof.
  unfold generateView, wcatch, wbind, fileToBase64, callGenerateContent,
    call, logError, wret, wthrow.
  destruct (readAsDataURL file) as [result|]; simpl; [|discriminate].
  destruct (generateContent studio _) as [e|response]; simpl; [discriminate|].
  unfold imageOf.
  destruct (candidates response) as [[|c cs]|]; simpl; try discriminate.
  destruct (content c) as [ct|]; simpl; [|discriminate].
  destruct (parts ct) as [ps|]; simpl; [|discriminate].
  destruct (firstInlineData ps) as [d|]; simpl; [|discriminate].
  intros H. injection H as <-. now exists d.
Qed.

(** X6. Whatever the model answers, an image URL that [generateView]
    returns is accepted by the video function and by the analysis: the
    three lines that read it never raise their [TypeError] on it. *)
Theorem generated_image_is_always_readable
  (file : File) (viewType : ViewType) (poseConfig : option PoseConfig)
  (backgroundConfig : option BackgroundConfig)
  (resolution : option ImageResolution) (customPrompt : option string)
  (fidelity : option Z) (url : string) :
  snd (generateView Json studio file viewType poseConfig backgroundConfig
         resolution customPrompt fidelity) = Returned url ->
  (exists parts, dataUrlParts url = inr parts) /\
  (exists req, videoRequest url = inr req).
Proof.
  intros Hret.
  destruct (generateView_returns_data_url _ _ _ _ _ _ _ _ Hret) as (d & ->).
  destruct (dataUrlParts_data_prefix
              (orElse (mimeType d) "image/png" ++ ";base64," ++
               render (data d))%string) as ([b m] & Hparts).
  unfold imageDataUrl. split; [eexists; exact Hparts|].
  rewrite videoRequest_dataUrlParts, Hparts. eexists. reflexivity.
Qed.

End Views.

Lemma generated_image_is_always_readable_sample :
  (exists parts,
     Image.dataUrlParts "data:image/jpeg;base64,QUJD" = inr parts) /\
  (exists req, videoRequest "data:image/jpeg;base64,QUJD" = inr req).
Proof.
  exact (generated_image_is_always_readable string painter pngFile
           Image.FRONT None None None None None
           "data:image/jpeg;base64,QUJD" eq_refl).
Defined.

(** ** The answer of the image model *)

Section ViewAnswers.

Import Image.

Variable Json : Type.
Variable studio : Studio Json.

Variables (file : File) (viewType : ViewType)
  (poseConfig : option PoseConfig)
  (backgroundConfig : option BackgroundConfig)
  (resolution : option ImageResolution) (customPrompt : option string)
  (fidelity : option Z).

Local Abbreviation sentRequest :=
  (requestOfView file viewType poseConfig backgroundConfig resolution
     customPrompt fidelity).

Lemma firstInlineData_skips (texts : list Part) (p : Part) (rest : list Part)
  (d : InlineData) :
  Forall (fun q => inlineData q = None) texts ->
  inlineData p = Some d ->
  firstInlineData (texts ++ p :: rest) = Some d.
Proof.
  intros Htexts Hp.
  induction Htexts as [|q texts Hq _ IH]; simpl; [now rewrite Hp|].
  now rewrite Hq.
Qed.

Lemma firstInlineData_none (ps : list Part) :
  Forall (fun q => inlineData q = None) ps -> firstInlineData ps = None.
Proof.
  intros H. induction H as [|q ps Hq _ IH]; simpl; [reflexivity|].
  now rewrite Hq.
Qed.

(** The run of [generateView] on a readable file, by the reply. *)
Lemma generateView_run (result : string) :
  readAsDataURL file = Some result ->
  generateView Json studio file viewType poseConfig backgroundConfig
    resolution customPrompt fidelity =
  match generateContent studio (sentRequest result) with
  | inr response =>
      match imageOf response with
      | inr url =>
          ([EvReadAsDataURL file; EvGenerateContent (sentRequest result)],
           Returned url)
      | inl e =>
          ([EvReadAsDataURL file; EvGenerateContent (sentRequest result);
            EvLogError "Gemini API Error:" e],
           Thrown (newError (orElse (message e) "Failed to generate image.")))
      end
  | inl e =>
      ([EvReadAsDataURL file; EvGenerateContent (sentRequest result);
        EvLogError "Gemini API Error:" e],
       Thrown (newError (orElse (message e) "Failed to generate image.")))
  end.
Proof.
  intros Hread.
  unfold generateView, fileToBase64, callGenerateContent, call,
    requestOfView, wcatch, wbind, logError, wret, wthrow.
  rewrite Hread. cbv beta iota delta [settle].
  destruct (generateContent studio _) as [e|response]; [reflexivity|].
  cbv beta iota.
  destruct (imageOf response); reflexivity.
Qed.

(** X7. [generateView] returns the first part of the first candidate that
    carries inline data, skipping the parts before it that carry none (the
    text the model writes around the image): the result is the data URL of
    that part, with [image/png] when the part names no MIME type. *)
Theorem first_image_part_is_returned
  (result : string) (response : GenerateContentResponse)
  (c : Candidate) (cs : list Candidate) (ct : Content)
  (texts : list Part) (p : Part) (rest : list Part) (d : InlineData) :
  readAsDataURL file = Some result ->
  generateContent studio (sentRequest result) = inr response ->
  candidates response = Some (c :: cs) ->
  content c = Some ct ->
  parts ct = Some (texts ++ p :: rest) ->
  Forall (fun q => inlineData q = None) texts ->
  inlineData p = Some d ->
  generateView Json studio file viewType poseConfig backgroundConfig
    resolution customPrompt fidelity =
  ([EvReadAsDataURL file; EvGenerateContent (sentRequest result)],
   Returned ("data:" ++ orElse (mimeType d) "image/png" ++ ";base64," ++
             render (data d))%string).
Proof.
  intros Hread Hreply Hc Hct Hps Htexts Hp.
  rewrite (generateView_run result Hread), Hreply.
  unfold imageOf. rewrite Hc, Hct, Hps.
  rewrite (firstInlineData_skips texts p rest d Htexts Hp). reflexivity.
Qed.

(** X8. What [generateView] does with a reply that holds no image, after
    its one request.  When the reply has no candidate, or when the first
    candidate has a list of parts none of which carries inline data, it
    fails with the message [No image generated in the response.].  When
    the first candidate has no content, or a content without a list of
    parts, line 173 raises a [TypeError] instead, and it is the message of
    that [TypeError] that the caller receives. *)
Theorem missing_image_fails
  (result : string) (response : GenerateContentResponse) :
  readAsDataURL file = Some result ->
  generateContent studio (sentRequest result) = inr response ->
  (candidates response = None \/
   candidates response = Some [] \/
   (exists c cs ct ps,
      candidates response = Some (c :: cs) /\ content c = Some ct /\
      parts ct = Some ps /\ Forall (fun q => inlineData q = None) ps) ->
   generateView Json studio file viewType poseConfig backgroundConfig
     resolution customPrompt fidelity =
   ([EvReadAsDataURL file; EvGenerateContent (sentRequest result);
     EvLogError "Gemini API Error:"
       (newError "No image generated in the response.")],
    Thrown (newError "No image generated in the response."))) /\
  (forall c cs,
     candidates response = Some (c :: cs) ->
     content c = None \/ (exists ct, content c = Some ct /\ parts ct = None) ->
     exists cause m,
       name cause = "TypeError" /\ message cause = Some m /\
       m <> "No image generated in the response." /\
       generateView Json studio file viewType poseConfig backgroundConfig
         resolution customPrompt fidelity =
       ([EvReadAsDataURL file; EvGenerateContent (sentRequest result);
         EvLogError "Gemini API Error:" cause],
        Thrown (newError m))).
Proof.
  intros Hread Hreply.
  rewrite (generateView_run result Hread), Hreply.
  split.
  - intros Hshape.
    assert (Himg : imageOf response = inl noImage).
    { unfold imageOf.
      destruct Hshape as [->|[->|(c & cs & ct & ps & -> & Hct & Hps & Hnone)]];
        try reflexivity.
      rewrite Hct, Hps, (firstInlineData_none ps Hnone). reflexivity. }
    rewrite Himg. reflexivity.
  - intros c cs Hc [Hct|(ct & Hct & Hps)]; unfold imageOf; rewrite Hc, Hct.
    + exists typeErrorParts. eexists.
      split; [reflexivity|]. split; [reflexivity|].
      split; [discriminate|reflexivity].
    + rewrite Hps. exists typeErrorNotIterable. eexists.
      split; [reflexivity|]. split; [reflexivity|].
      split; [discriminate|reflexivity].
Qed.

(** X9. When the file cannot be read, [generateView] sends nothing to the
    model.  What the reader hands to [onerror] is an event without a
    message, so the caller receives the fallback message
    [Failed to generate image.]. *)
Theorem unreadable_file_sends_nothing :
  readAsDataURL file = None ->
  generateView Json studio file viewType poseConfig backgroundConfig
    resolution customPrompt fidelity =
  ([EvReadAsDataURL file; EvLogError "Gemini API Error:" progressEvent],
   Thrown (newError "Failed to generate image.")).
Proof.
  intros Hread.
  unfold generateView, wcatch, wbind, fileToBase64, call, logError.
  rewrite Hread. reflexivity.
Qed.

(** X10. [generateView] sends at most one request.  The request goes to
    the flash model without an image size when the resolution is 1K or
    left out, and to the pro model with the resolution as image size
    otherwise; its aspect ratio is always 1:1, and it carries the type of
    the file and the prompt of [getViewPrompt]. *)
Theorem view_request_follows_resolution (req : ContentRequest) :
  In (EvGenerateContent req)
    (fst (generateView Json studio file viewType poseConfig backgroundConfig
            resolution customPrompt fidelity)) ->
  (exists result,
     readAsDataURL file = Some result /\ req = sentRequest result) /\
  model req =
    match withDefault R1K resolution with
    | R1K => "gemini-2.5-flash-image"
    | _ => "gemini-3-pro-image-preview"
    end /\
  config req =
    ImageConfig "1:1"
      match withDefault R1K resolution with
      | R1K => None
      | r => Some r
      end /\
  length
    (filter (fun ev => match ev with EvGenerateContent _ => true | _ => false end)
       (fst (generateView Json studio file viewType poseConfig
               backgroundConfig resolution customPrompt fidelity))) = 1.
Proof.
  destruct (readAsDataURL file) as [result|] eqn:Hread.
  - rewrite (generateView_run result Hread).
    assert (Hshape :
      model (sentRequest result) =
        match withDefault R1K resolution with
        | R1K => "gemini-2.5-flash-image"
        | _ => "gemini-3-pro-image-preview"
        end /\
      config (sentRequest result) =
        ImageConfig "1:1"
          match withDefault R1K resolution with
          | R1K => None
          | r => Some r
          end)
      by (unfold requestOfView, viewRequest;
          destruct (withDefault R1K resolution); split; reflexivity).
    destruct (generateContent studio (sentRequest result)) as [e|response];
      [|destruct (imageOf response)]; simpl;
      intros [H|[H|H]]; try discriminate; try contradiction;
      try (destruct H as [H|H]; try discriminate; try contradiction);
      injection H as <-;
      (split; [now exists result|]);
      (split; [exact (proj1 Hshape)|]);
      (split; [exact (proj2 Hshape)|reflexivity]).
  - rewrite unreadable_file_sends_nothing by exact Hread.
    simpl. intros [H|[H|H]]; try discriminate; contradiction.
Qed.

End ViewAnswers.

Lemma first_image_part_is_returned_sample :
  snd (Image.generateView string painter pngFile Image.FRONT None None None
         None None) =
  Returned "data:image/jpeg;base64,QUJD".
Proof.
  rewrite (first_image_part_is_returned string painter pngFile Image.FRONT
             None None None None None
             "data:image/png;base64,iVBORw0KGgo=" _ _ [] _
             [textPart] jpegPart []
             {| Image.data := Some "QUJD";
                Image.mimeType := Some "image/jpeg" |}
             eq_refl eq_refl eq_refl eq_refl eq_refl
             (Forall_cons textPart (eq_refl : Image.inlineData textPart = None)
                (Forall_nil _)) eq_refl).
  reflexivity.
Defined.

Lemma missing_image_fails_sample :
  snd (Image.generateView string mute pngFile Image.SIDE None None
         (Some Image.R2K) None None) =
  Thrown (newError "No image generated in the response.").
Proof.
  rewrite (proj1 (missing_image_fails string mute pngFile Image.SIDE None
                    None (Some Image.R2K) None None
                    "data:image/png;base64,iVBORw0KGgo=" _
                    eq_refl eq_refl) (or_introl eq_refl)).
  reflexivity.
Defined.

Lemma unreadable_file_sends_nothing_sample :
  Image.generateView string painter unreadableFile Image.TOP None None None
    None None =
  ([Image.EvReadAsDataURL unreadableFile;
    Image.EvLogError "Gemini API Error:" Image.progressEvent],
   Thrown (newError "Failed to generate image.")).
Proof.
  exact (unreadable_file_sends_nothing string painter unreadableFile
           Image.TOP None None None None None eq_refl).
Defined.

Lemma view_request_follows_resolution_sample :
  Image.model
    (Image.requestOfView pngFile Image.BACK None None (Some Image.R4K) None
       None "data:image/png;base64,iVBORw0KGgo=") =
    "gemini-3-pro-image-preview" /\
  Image.config
    (Image.requestOfView pngFile Image.BACK None None (Some Image.R4K) None
       None "data:image/png;base64,iVBORw0KGgo=") =
    Image.ImageConfig "1:1" (Some Image.R4K).
Proof.
  destruct (view_request_follows_resolution string painter pngFile
              Image.BACK None None (Some Image.R4K) None None
              (Image.requestOfView pngFile Image.BACK None None
                 (Some Image.R4K) None None
                 "data:image/png;base64,iVBORw0KGgo=")
              (or_intror (or_introl eq_refl)))
    as (_ & Hmodel & Hconfig & _).
  split; [exact Hmodel|exact Hconfig].
Defined.

(** ** The prompt of a view *)

Lemma append_assoc (a b c : string) :
  ((a ++ b) ++ c)%string = (a ++ b ++ c)%string.
Proof. induction a as [|x a IH]; simpl; [reflexivity|now rewrite IH]. Qed.

Lemma append_cancel_l (a x y : string) :
  (a ++ x)%string = (a ++ y)%string -> x = y.
Proof.
  induction a as [|c a IH]; simpl; intros H; [exact H|].
  injection H as H. now apply IH.
Qed.

Lemma ends_with_step (a b suffix : string) :
  (exists before, b = (before ++ suffix)%string) ->
  exists before, (a ++ b)%string = (before ++ suffix)%string.
Proof.
  intros (before & ->). exists (a ++ before)%string.
  now rewrite append_assoc.
Qed.

Lemma contains_step (a b mid : string) :
  (exists before after, b = (before ++ mid ++ after)%string) ->
  exists before after, (a ++ b)%string = (before ++ mid ++ after)%string.
Proof.
  intros (before & after & ->). exists (a ++ before)%string, after.
  now rewrite append_assoc.
Qed.

Lemma contains_here (mid rest : string) :
  exists before after, (mid ++ rest)%string = (before ++ mid ++ after)%string.
Proof. now exists EmptyString, rest. Qed.

Lemma ends_with_refl (suffix : string) :
  exists before, suffix = (before ++ suffix)%string.
Proof. now exists EmptyString. Qed.

Section Prompts.

Import Image.

Variables (backgroundConfig : option BackgroundConfig)
  (resolution : option ImageResolution) (customPrompt : option string).

(** X11. For the views whose pose sliders the page hides (side and top),
    the arm angle never reaches the prompt: two poses with the same leg
    spread give the same prompt.  The top view ignores the whole pose,
    whether there is one or not; the side view still carries the leg
    spread. *)
Theorem hidden_pose_controls_ignore_arm_angle
  (viewType : ViewType) (fidelity : option Z) :
  App.showPoseControls viewType = false ->
  (forall arm1 arm2 leg,
     getViewPrompt viewType (Some {| armAngle := arm1; legSpread := leg |})
       backgroundConfig resolution customPrompt fidelity =
     getViewPrompt viewType (Some {| armAngle := arm2; legSpread := leg |})
       backgroundConfig resolution customPrompt fidelity) /\
  (forall pose1 pose2,
     getViewPrompt TOP pose1 backgroundConfig resolution customPrompt
       fidelity =
     getViewPrompt TOP pose2 backgroundConfig resolution customPrompt
       fidelity) /\
  (forall pose,
     exists before after,
       getViewPrompt SIDE (Some pose) backgroundConfig resolution
         customPrompt fidelity =
       (before ++ "Legs should be straight or slightly spread (" ++
        showNumber (legSpread pose) ++ " degrees)." ++ after)%string).
Proof.
  intros Hhidden. split; [|split].
  - intros arm1 arm2 leg.
    destruct viewType; try discriminate; reflexivity.
  - reflexivity.
  - intros pose.
    assert (H : exists before after,
               getViewPrompt SIDE (Some pose) backgroundConfig resolution
                 customPrompt fidelity =
               (before ++ sideLegInstruction (Some pose) ++ after)%string).
    { unfold getViewPrompt. cbv zeta.
      repeat first [ apply contains_here | apply contains_step ]. }
    destruct H as (before & after & ->).
    exists before, after. unfold sideLegInstruction.
    now rewrite !append_assoc.
Qed.

End Prompts.

Section PromptSettings.

Import Image.

Variables (viewType : ViewType) (poseConfig : option PoseConfig)
  (resolution : option ImageResolution) (customPrompt : option string).

(** X12. The colour of the background configuration reaches the prompt
    only for the custom-colour type: with the white or the transparent
    type, two configurations that differ in the colour give the same
    prompt, and leaving the configuration out is the same as asking for
    white. *)
Theorem background_colour_only_for_custom
  (fidelity : option Z) (t : BackgroundType) (colour1 colour2 : string) :
  t <> CUSTOM_COLOR ->
  getViewPrompt viewType poseConfig (Some {| type := t; color := colour1 |})
    resolution customPrompt fidelity =
  getViewPrompt viewType poseConfig (Some {| type := t; color := colour2 |})
    resolution customPrompt fidelity /\
  getViewPrompt viewType poseConfig None resolution customPrompt fidelity =
  getViewPrompt viewType poseConfig (Some {| type := WHITE; color := colour1 |})
    resolution customPrompt fidelity.
Proof.
  intros Ht. split.
  - destruct t; [reflexivity|reflexivity|now contradiction Ht].
  - reflexivity.
Qed.

Lemma fidelityInstruction_band (f1 f2 : Z) :
  fidelityBand f1 = fidelityBand f2 <->
  fidelityInstruction f1 = fidelityInstruction f2.
Proof.
  unfold fidelityBand, fidelityInstruction.
  destruct (90 <=? f1)%Z, (70 <=? f1)%Z, (40 <=? f1)%Z,
    (90 <=? f2)%Z, (70 <=? f2)%Z, (40 <=? f2)%Z;
    split; intros H; try reflexivity; try discriminate H.
Qed.

(** X13. The prompt depends on the fidelity through its band only: at
    least 90, from 70 to 89, from 40 to 69, below 40.  Two values give the
    same prompt exactly when they lie in the same band, and leaving the
    fidelity out is asking for 90. *)
Theorem fidelity_counts_by_band
  (backgroundConfig : option BackgroundConfig) (f1 f2 : Z) :
  (getViewPrompt viewType poseConfig backgroundConfig resolution customPrompt
     (Some f1) =
   getViewPrompt viewType poseConfig backgroundConfig resolution customPrompt
     (Some f2)
   <->
   ((90 <= f1 /\ 90 <= f2) \/ (70 <= f1 < 90 /\ 70 <= f2 < 90) \/
    (40 <= f1 < 70 /\ 40 <= f2 < 70) \/ (f1 < 40 /\ f2 < 40))%Z) /\
  getViewPrompt viewType poseConfig backgroundConfig resolution customPrompt
    None =
  getViewPrompt viewType poseConfig backgroundConfig resolution customPrompt
    (Some 90%Z).
Proof.
  split; [|reflexivity].
  assert (Hband : fidelityBand f1 = fidelityBand f2 <->
            ((90 <= f1 /\ 90 <= f2) \/ (70 <= f1 < 90 /\ 70 <= f2 < 90) \/
             (40 <= f1 < 70 /\ 40 <= f2 < 70) \/ (f1 < 40 /\ f2 < 40))%Z).
  { unfold fidelityBand.
    destruct (Z.leb_spec 90 f1), (Z.leb_spec 70 f1), (Z.leb_spec 40 f1),
      (Z.leb_spec 90 f2), (Z.leb_spec 70 f2), (Z.leb_spec 40 f2);
      split; intros Hb; try reflexivity; try discriminate Hb; try lia. }
  rewrite <- Hband, fidelityInstruction_band.
  split.
  - unfold getViewPrompt, common. cbv zeta. cbn [withDefault].
    destruct viewType; intros H;
      repeat (apply append_cancel_l in H);
      match type of H with
      | (fidelityInstruction f1 ++ ?tail)%string = _ =>
          revert H; generalize tail
      end;
      unfold fidelityInstruction;
      destruct (90 <=? f1)%Z, (70 <=? f1)%Z, (40 <=? f1)%Z,
        (90 <=? f2)%Z, (70 <=? f2)%Z, (40 <=? f2)%Z;
      intros tail H; try reflexivity; simpl in H; discriminate H.
  - intros H. unfold getViewPrompt, common. cbn [withDefault]. now rewrite H.
Qed.

(** X14. Whatever the view and the settings, the prompt ends with the
    sentence on the output format, which names the pixel size of the
    resolution (1024x1024 when it is left out) and asks for a PNG with
    transparency exactly for the transparent background. *)
Theorem prompt_ends_with_output_format
  (backgroundConfig : option BackgroundConfig) (fidelity : option Z) :
  exists before,
    getViewPrompt viewType poseConfig backgroundConfig resolution customPrompt
      fidelity =
    (before ++ "Output format: standard " ++
     match withDefault R1K resolution with
     | R1K => "1024x1024"
     | R2K => "2048x2048"
     | R4K => "4096x4096"
     end ++
     match backgroundConfig with
     | Some {| type := TRANSPARENT |} =>
         " square PNG image with transparency."
     | _ => " square image."
     end)%string.
Proof.
  assert (H : exists before,
             getViewPrompt viewType poseConfig backgroundConfig resolution
               customPrompt fidelity =
             (before ++ formatInstruction backgroundConfig
                          (dimMap (withDefault R1K resolution)))%string).
  { unfold getViewPrompt, common. cbv zeta.
    destruct viewType;
      repeat first [ apply ends_with_refl | apply ends_with_step ]. }
  destruct H as (before & ->). exists before. f_equal.
  unfold formatInstruction, dimMap.
  destruct backgroundConfig as [[[] c]|]; reflexivity.
Qed.

End PromptSettings.

Lemma hidden_pose_controls_ignore_arm_angle_sample :
  Image.getViewPrompt Image.SIDE
    (Some {| Image.armAngle := 90; Image.legSpread := 10 |})
    None None None None =
  Image.getViewPrompt Image.SIDE
    (Some {| Image.armAngle := 0; Image.legSpread := 10 |})
    None None None None.
Proof.
  exact (proj1 (hidden_pose_controls_ignore_arm_angle None None None
                  Image.SIDE None eq_refl) 90%Z 0%Z 10%Z).
Defined.

Lemma background_colour_only_for_custom_sample :
  Image.getViewPrompt Image.FRONT None
    (Some {| Image.type := Image.TRANSPARENT; Image.color := "#00ff00" |})
    None None None =
  Image.getViewPrompt Image.FRONT None
    (Some {| Image.type := Image.TRANSPARENT; Image.color := "#123456" |})
    None None None.
Proof.
  refine (proj1 (background_colour_only_for_custom Image.FRONT None None None
                   None Image.TRANSPARENT "#00ff00" "#123456" _)).
  discriminate.
Defined.

Lemma fidelity_counts_by_band_sample :
  Image.getViewPrompt Image.BACK None None None None (Some 100%Z) =
  Image.getViewPrompt Image.BACK None None None None (Some 90%Z).
Proof.
  apply (proj2 (proj1 (fidelity_counts_by_band Image.BACK None None None None
                         100%Z 90%Z))).
  left. lia.
Defined.

(** ** The analysis of the style *)

Section Analysis.

Import Image.

Variable Json : Type.
Variable studio : Studio Json.
Variables (originalFile : File) (generatedImageDataUrl : string).

(** X15. The analysis resolves exactly when every step succeeds: the file
    is read, the data URL of the generated image has a colon before its
    first comma, the model replies, the reply has a text that is not
    empty, and [JSON.parse] accepts that text.  It then resolves to what
    [JSON.parse] returned, after one request that carries both images. *)
Theorem analysis_resolves_when_every_step_does (result : Json) :
  snd (analyzeStyleConsistency Json studio originalFile
         generatedImageDataUrl) = Returned result
  <->
  exists read generatedBase64 generatedMimeType response json,
    readAsDataURL originalFile = Some read /\
    dataUrlParts generatedImageDataUrl =
      inr (generatedBase64, generatedMimeType) /\
    generateContent studio
      (analysisRequest (nth_error (split "," read) 1) (fileType originalFile)
         generatedBase64 generatedMimeType) = inr response /\
    truthy (responseText response) = Some json /\
    jsonParse studio json = inr result.
Proof.
  unfold analyzeStyleConsistency, wcatch, wbind, fileToBase64,
    callGenerateContent, call, logError, wthrow.
  destruct (readAsDataURL originalFile) as [read|];
    cbv beta iota delta [settle].
  2:{ split; [discriminate|]. intros (? & ? & ? & ? & ? & H & _).
      discriminate H. }
  destruct (dataUrlParts generatedImageDataUrl) as [e|[b m]];
    cbv beta iota.
  { split; [discriminate|]. intros (? & ? & ? & ? & ? & _ & H & _).
    discriminate H. }
  destruct (generateContent studio (analysisRequest _ _ b m))
    as [e|response] eqn:Hreply; cbv beta iota.
  { split; [discriminate|].
    intros (? & ? & ? & ? & ? & H1 & H2 & H3 & _).
    injection H1 as <-. injection H2 as <- <-. congruence. }
  destruct (truthy (responseText response)) as [json|] eqn:Htext;
    cbv beta iota.
  2:{ split; [discriminate|].
      intros (? & ? & ? & ? & ? & H1 & H2 & H3 & H4 & _).
      injection H1 as <-. injection H2 as <- <-. congruence. }
  destruct (jsonParse studio json) as [e|j] eqn:Hparse; cbv beta iota.
  { split; [discriminate|].
    intros (? & ? & ? & ? & ? & H1 & H2 & H3 & H4 & H5).
    injection H1 as <-. injection H2 as <- <-.
    rewrite Hreply in H3. injection H3 as <-.
    rewrite Htext in H4. injection H4 as <-. congruence. }
  split.
  - intros H. injection H as <-.
    exists read, b, m, response, json. repeat split; assumption.
  - intros (? & ? & ? & ? & ? & H1 & H2 & H3 & H4 & H5).
    injection H1 as <-. injection H2 as <- <-.
    rewrite Hreply in H3. injection H3 as <-.
    rewrite Htext in H4. injection H4 as <-. simpl. congruence.
Qed.

(** X16. Every failure of the analysis reaches the caller as the same
    error, with the fixed message [Failed to analyze style consistency.]:
    unlike the other two functions, the analysis never passes on the
    message of what went wrong.  The error that was caught is the last
    thing written to the console. *)
Theorem analysis_failure_is_always_the_same (e : JsError) :
  snd (analyzeStyleConsistency Json studio originalFile
         generatedImageDataUrl) = Thrown e ->
  e = newError "Failed to analyze style consistency." /\
  exists calls cause,
    fst (analyzeStyleConsistency Json studio originalFile
           generatedImageDataUrl) =
    calls ++ [EvLogError "Analysis Error:" cause].
Proof.
  unfold analyzeStyleConsistency, wcatch, wbind, fileToBase64,
    callGenerateContent, call, logError, wthrow.
  destruct (readAsDataURL originalFile) as [read|];
    cbv beta iota delta [settle].
  2:{ intros H. injection H as <-. split; [reflexivity|].
      now exists [EvReadAsDataURL originalFile], progressEvent. }
  destruct (dataUrlParts generatedImageDataUrl) as [e0|[b m]];
    cbv beta iota.
  { intros H. injection H as <-. split; [reflexivity|].
    now exists [EvReadAsDataURL originalFile], e0. }
  destruct (generateContent studio (analysisRequest _ _ b m))
    as [e0|response]; cbv beta iota.
  { intros H. injection H as <-. split; [reflexivity|].
    eexists [_; _], e0. reflexivity. }
  destruct (truthy (responseText response)) as [json|]; cbv beta iota.
  2:{ intros H. injection H as <-. split; [reflexivity|].
      eexists [_; _], _. reflexivity. }
  destruct (jsonParse studio json) as [e0|j]; cbv beta iota.
  - intros H. injection H as <-. split; [reflexivity|].
    eexists [_; _; _], e0. reflexivity.
  - discriminate.
Qed.

End Analysis.

Lemma analysis_failure_is_always_the_same_sample :
  newError "Failed to analyze style consistency." =
  newError "Failed to analyze style consistency." /\
  exists calls cause,
    fst (Image.analyzeStyleConsistency string (refusingStudio notFound)
           pngFile pngDataUrl) =
    calls ++ [Image.EvLogError "Analysis Error:" cause].
Proof.
  exact (analysis_failure_is_always_the_same string (refusingStudio notFound)
           pngFile pngDataUrl
           (newError "Failed to analyze style consistency.") eq_refl).
Defined.

(** ** The page *)

Lemma truthy_idem (a : option string) (m : string) :
  truthy a = Some m -> a = Some m /\ truthy (Some m) = Some m.
Proof.
  destruct a as [[|c s]|]; simpl; intros H; try discriminate.
  injection H as <-. split; reflexivity.
Qed.

Section Handlers.

Import Image App.

Variable Json : Type.

(** X17. The button of the video always lets go of the page.  When a run
    of [handleGenerateVideo] ends, resolved or rejected, either it
    returned before starting (no image, or no key selected: the state is
    untouched and the provider was not called), or the flag
    [isGeneratingVideo] is false at the end.  When the video function
    resolved, the page holds its URL and no error. *)
Theorem video_handler_releases_the_page
  (env : Provider) (aistudio : option AiStudio) (fuel : nat)
  (p p' : Page Json) (o : Outcome unit) (l : list Event) :
  handleGenerateVideo Json env aistudio fuel p = (p', o, l) ->
  o <> Pending ->
  (ui Json p' = ui Json p /\ l = []) \/
  (isGeneratingVideo Json (ui Json p') = false /\
   forall url,
     truthy (generatedImageUrl Json (ui Json p)) = Some url ->
     forall w resultVideoUrl,
       generateTurnaroundVideo env fuel url start =
         (w, Returned resultVideoUrl) ->
       videoUrl Json (ui Json p') = Some resultVideoUrl /\
       error Json (ui Json p') = None /\ l = log w).
Proof.
  unfold handleGenerateVideo.
  destruct (truthy (generatedImageUrl Json (ui Json p))) as [url|].
  2:{ intros H _. injection H as <- _ <-. left. split; reflexivity. }
  assert (Hcheck : ui Json (fst (checkApiKey Json aistudio p)) = ui Json p).
  { unfold checkApiKey.
    destruct aistudio as [a|]; [|reflexivity].
    destruct (hasSelectedApiKey a) as [[e|[|]]|]; try reflexivity.
    destruct (openSelectKey a (opened Json p)); reflexivity. }
  destruct (checkApiKey Json aistudio p) as [p1 [[|]|e|]];
    simpl in Hcheck.
  - destruct (generateTurnaroundVideo env fuel url start)
      as [w [resultVideoUrl|err|]] eqn:Hvideo.
    + intros H _. injection H as <- _ <-. right.
      split; [reflexivity|].
      intros url' Hurl w' r' Hrun. injection Hurl as <-.
      rewrite Hvideo in Hrun.
      injection Hrun as <- <-. repeat split; reflexivity.
    + destruct (showFailure Json aistudio "Failed to generate video." err
                  (update Json (setError Json None)
                     (update Json (setIsGeneratingVideo Json true) p1)))
        as [p2 o2].
      intros H _. injection H as <- _ <-. right.
      split; [reflexivity|].
      intros url' Hurl w' r' Hrun. injection Hurl as <-.
      rewrite Hvideo in Hrun. discriminate Hrun.
    + intros H Ho. injection H as _ <- _. now contradiction Ho.
  - intros H _. injection H as <- _ <-. left. split; [exact Hcheck|reflexivity].
  - intros H _. injection H as <- _ <-. left. split; [exact Hcheck|reflexivity].
  - intros H Ho. injection H as _ <- _. now contradiction Ho.
Qed.

(** X18. A key that the provider no longer knows is recovered from end to
    end.  When the creation or a status query raises an error whose
    message contains [Requested entity was not found], the video function
    passes that message on, and the page, inside the studio with a key
    selected, opens the key dialog once and shows the advice to select the
    key again; outside the studio it shows the message of the provider
    itself.  Either way the flag is released and the old video is kept. *)
Theorem lost_key_is_recovered
  (env : Provider) (req : VideoRequest) (n : nat) (e : JsError) (m : string)
  (fuel : nat) (url : string) (p : Page Json) :
  failsOn env req n e ->
  n <= fuel ->
  truthy (message e) = Some m ->
  includes keyIssueMark m = true ->
  truthy (generatedImageUrl Json (ui Json p)) = Some url ->
  videoRequest url = inr req ->
  (forall a,
     hasSelectedApiKey a = Some (inr true) ->
     openSelectKey a (opened Json p) = inr tt ->
     exists p' l,
       handleGenerateVideo Json env (Some a) fuel p = (p', Returned tt, l) /\
       error Json (ui Json p') = Some keyIssueMessage /\
       opened Json p' = S (opened Json p) /\
       isGeneratingVideo Json (ui Json p') = false /\
       videoUrl Json (ui Json p') = videoUrl Json (ui Json p)) /\
  (exists p' l,
     handleGenerateVideo Json env None fuel p = (p', Returned tt, l) /\
     error Json (ui Json p') = Some m /\
     opened Json p' = opened Json p /\
     isGeneratingVideo Json (ui Json p') = false /\
     videoUrl Json (ui Json p') = videoUrl Json (ui Json p)).
Proof.
  intros Hfail Hfuel Hm Hmark Hurl Hreq.
  destruct (poll_fails env req n e fuel Hfail Hfuel) as (ops & _ & _ & Hrun).
  assert (Hfn : generateTurnaroundVideo env fuel url start =
                (record (EvConsoleError e)
                   {| polls := n; log := pollingLog req ops |},
                 Thrown (newError m))).
  { rewrite (generateTurnaroundVideo_run env fuel _ req Hreq), Hrun.
    unfold rethrown, orElse. now rewrite Hm. }
  destruct (truthy_idem _ _ Hm) as (_ & Hmm).
  split.
  - intros a Hkey Hopen.
    unfold handleGenerateVideo, checkApiKey. rewrite Hurl, Hkey, Hfn.
    unfold showFailure, keyIssue. cbn [message newError].
    rewrite Hmm, Hmark. cbn [report opened update ui]. rewrite Hopen.
    eexists. eexists. split; [reflexivity|].
    repeat split; reflexivity.
  - unfold handleGenerateVideo, checkApiKey. rewrite Hurl, Hfn.
    unfold showFailure, keyIssue. cbn [message newError].
    rewrite Hmm, Hmark. unfold orElse. rewrite Hmm.
    eexists. eexists. split; [reflexivity|].
    repeat split; reflexivity.
Qed.

(** X19. A failed analysis is silent.  [handleAnalyze] never changes the
    error that the page shows, whatever happens; the analysis it shows
    changes only when the analysis resolved; and when the handler ends
    after starting, the flag [isAnalyzing] is false. *)
Theorem analysis_handler_is_silent
  (studio : Studio Json) (p p' : Page Json) (o : Outcome unit)
  (l : list ImageEvent) :
  handleAnalyze Json studio p = (p', o, l) ->
  error Json (ui Json p') = error Json (ui Json p) /\
  o = Returned tt /\
  (ui Json p' = ui Json p \/ isAnalyzing Json (ui Json p') = false) /\
  (analysis Json (ui Json p') <> analysis Json (ui Json p) ->
   exists file url result,
     selectedFile Json (ui Json p) = Some file /\
     truthy (generatedImageUrl Json (ui Json p)) = Some url /\
     snd (analyzeStyleConsistency Json studio file url) = Returned result /\
     analysis Json (ui Json p') = Some result).
Proof.
  unfold handleAnalyze.
  destruct (selectedFile Json (ui Json p)) as [file|].
  2:{ intros H. injection H as <- <- _.
      repeat split; try reflexivity; [now left|now intros []]. }
  destruct (truthy (generatedImageUrl Json (ui Json p))) as [url|].
  2:{ intros H. injection H as <- <- _.
      repeat split; try reflexivity; [now left|now intros []]. }
  assert (Hnp : snd (analyzeStyleConsistency Json studio file url) <> Pending).
  { unfold analyzeStyleConsistency, wcatch, wbind, fileToBase64,
      callGenerateContent, call, logError, wthrow.
    destruct (readAsDataURL file); cbv beta iota delta [settle];
      [|discriminate].
    destruct (dataUrlParts url) as [?|[b m]]; cbv beta iota; [discriminate|].
    destruct (generateContent studio _); cbv beta iota; [discriminate|].
    destruct (truthy (responseText _)); cbv beta iota; [|discriminate].
    destruct (jsonParse studio _); cbv beta iota; discriminate. }
  destruct (analyzeStyleConsistency Json studio file url)
    as [l0 [result|err|]] eqn:Hrun; [| |now contradiction Hnp].
  - intros H. injection H as <- <- _.
    repeat split; try reflexivity; [now right|].
    intros _. exists file, url, result. rewrite Hrun.
    repeat split; reflexivity.
  - intros H. injection H as <- <- _.
    repeat split; try reflexivity; [now right|now intros []].
Qed.

End Handlers.

Section Generating.

Import Image App.

Variable Json : Type.
Variable studio : Studio Json.

(** The call that [handleGenerate] makes with the settings of the page. *)
Local Abbreviation viewOf p file :=
  (generateView Json studio file (viewType Json (ui Json p))
     (Some (poseConfig Json (ui Json p)))
     (Some (backgroundConfig Json (ui Json p)))
     (Some (resolution Json (ui Json p)))
     (Some (customPrompt Json (ui Json p)))
     (Some (fidelity Json (ui Json p)))).

(** X20. At the resolution 1K the page generates without asking the
    studio for a key.  When [generateView] resolves, the page ends in the
    state [SUCCESS] with the new image, and the analysis, the video and
    the error of an earlier run are gone. *)
Theorem generate_handler_shows_the_image
  (aistudio : option AiStudio) (p : Page Json) (file : File)
  (l : list ImageEvent) (url : string) :
  selectedFile Json (ui Json p) = Some file ->
  resolution Json (ui Json p) = R1K ->
  viewOf p file = (l, Returned url) ->
  exists p',
    handleGenerate Json studio aistudio p = (p', Returned tt, l) /\
    status Json (ui Json p') = SUCCESS /\
    generatedImageUrl Json (ui Json p') = Some url /\
    error Json (ui Json p') = None /\
    analysis Json (ui Json p') = None /\
    videoUrl Json (ui Json p') = None /\
    opened Json p' = opened Json p /\
    reported Json p' = reported Json p.
Proof.
  intros Hfile Hres Hview.
  unfold handleGenerate. rewrite Hfile.
  cbn [update ui setStatus setAnalysis setVideoUrl setError
       viewType poseConfig backgroundConfig resolution customPrompt fidelity].
  rewrite Hres. cbv beta iota. rewrite Hview.
  eexists. split; [reflexivity|]. repeat split; reflexivity.
Qed.

(** X21. The higher resolutions need a key: when the resolution is not 1K,
    no key is selected in the studio and the key dialog is rejected, the
    page sends nothing to the model and keeps its state; the rejection is
    written to the console. *)
Theorem high_resolution_needs_a_key
  (a : AiStudio) (p : Page Json) (file : File) (e : JsError) :
  selectedFile Json (ui Json p) = Some file ->
  resolution Json (ui Json p) <> R1K ->
  hasSelectedApiKey a = Some (inr false) ->
  openSelectKey a (opened Json p) = inl e ->
  handleGenerate Json studio (Some a) p =
  ({| ui := ui Json p;
      opened := S (opened Json p);
      reported := reported Json p ++ [e] |},
   Returned tt, []).
Proof.
  intros Hfile Hres Hkey Hopen.
  unfold handleGenerate, checkApiKey. rewrite Hfile, Hkey, Hopen.
  destruct (resolution Json (ui Json p)); [now contradiction Hres| |];
    reflexivity.
Qed.

Lemma checkApiKey_keeps_state (aistudio : option AiStudio)
  (p p1 : Page Json) (o : Outcome bool) :
  checkApiKey Json aistudio p = (p1, o) -> ui Json p1 = ui Json p.
Proof.
  unfold checkApiKey.
  destruct aistudio as [a|]; [|intros H; now injection H as <- _].
  destruct (hasSelectedApiKey a) as [[e|[|]]|];
    try (intros H; now injection H as <- _).
  destruct (openSelectKey a (opened Json p));
    intros H; now injection H as <- _.
Qed.

(** X22. A key dialog that is rejected after a failed generation leaves
    the page processing, at every resolution.  When the run has started
    (at 1K, or above 1K after the key check passed), [generateView] fails
    with a message that contains [Requested entity was not found], and
    the dialog that the page then opens is rejected, [handleGenerate]
    rejects before it sets the error and the state [ERROR]: the page stays
    in [PROCESSING] without an error to show. *)
Theorem rejected_dialog_leaves_page_processing
  (a : AiStudio) (p started : Page Json) (file : File)
  (l : list ImageEvent) (err e : JsError) (m : string) :
  selectedFile Json (ui Json p) = Some file ->
  runStarts Json (Some a) p started ->
  viewOf p file = (l, Thrown err) ->
  truthy (message err) = Some m ->
  includes keyIssueMark m = true ->
  openSelectKey a (opened Json started) = inl e ->
  exists p',
    handleGenerate Json studio (Some a) p = (p', Thrown e, l) /\
    status Json (ui Json p') = PROCESSING /\
    error Json (ui Json p') = None /\
    opened Json p' = S (opened Json started).
Proof.
  intros Hfile Hstart Hview Hm Hmark Hopen.
  assert (Hui : ui Json started = ui Json p).
  { destruct Hstart as [[_ ->]|[_ Hcheck]]; [reflexivity|].
    exact (checkApiKey_keeps_state _ _ _ _ Hcheck). }
  assert (Hchecked :
            match resolution Json (ui Json p) with
            | R1K => (p, Returned true)
            | _ => checkApiKey Json (Some a) p
            end = (started, Returned true)).
  { destruct Hstart as [[-> ->]|[Hres Hcheck]]; [reflexivity|].
    destruct (resolution Json (ui Json p));
      [now contradiction Hres|exact Hcheck|exact Hcheck]. }
  unfold handleGenerate. rewrite Hfile, Hchecked.
  cbn [update ui setStatus setAnalysis setVideoUrl setError
       viewType poseConfig backgroundConfig resolution customPrompt fidelity].
  rewrite Hui, Hview.
  unfold showFailure, keyIssue. rewrite Hm, Hmark.
  cbn [report opened update ui]. rewrite Hopen.
  eexists. split; [reflexivity|]. repeat split; reflexivity.
Qed.

End Generating.

(** X23. The extension of the downloaded file follows the MIME type of
    the image that [generateView] returned: [jpg] for [image/jpeg],
    [webp] for [image/webp], and [png] for [image/png] and for a part
    that names no MIME type, whatever the payload of the image is.  No
    other extension is ever chosen. *)
Theorem download_extension_follows_mime (d : Image.InlineData) :
  (Image.mimeType d = Some "image/jpeg" ->
   App.extensionFor (Image.imageDataUrl d) = "jpg") /\
  (Image.mimeType d = Some "image/webp" ->
   App.extensionFor (Image.imageDataUrl d) = "webp") /\
  (Image.mimeType d = Some "image/png" \/ truthy (Image.mimeType d) = None ->
   App.extensionFor (Image.imageDataUrl d) = "png") /\
  (forall url,
     App.extensionFor url = "png" \/ App.extensionFor url = "jpg" \/
     App.extensionFor url = "webp").
Proof.
  unfold Image.imageDataUrl, orElse.
  split; [|split; [|split]].
  - intros ->. reflexivity.
  - intros ->. reflexivity.
  - intros [Hm|Hm]; rewrite Hm; reflexivity.
  - intros url. unfold App.extensionFor.
    destruct (App.matchImageMime url) as [m|]; [|now left].
    destruct (String.eqb m "image/webp"); [now right; right|].
    destruct (String.eqb m "image/jpeg"); [now right; left|now left].
Qed.

Lemma download_extension_follows_mime_sample :
  App.extensionFor "data:image/jpeg;base64,QUJD" = "jpg".
Proof.
  exact (proj1 (download_extension_follows_mime
                  {| Image.data := Some "QUJD";
                     Image.mimeType := Some "image/jpeg" |}) eq_refl).
Defined.

Lemma video_handler_releases_the_page_sample :
  App.isGeneratingVideo string
    (App.ui string
       (fst (fst (App.handleGenerateVideo string scenario None 2
                    pageWithImage)))) = false.
Proof.
  destruct (video_handler_releases_the_page string scenario None 2
              pageWithImage
              (fst (fst (App.handleGenerateVideo string scenario None 2
                           pageWithImage)))
              (snd (fst (App.handleGenerateVideo string scenario None 2
                           pageWithImage)))
              (snd (App.handleGenerateVideo string scenario None 2
                      pageWithImage))
              eq_refl ltac:(vm_compute; discriminate))
    as [[_ Hl]|[Hflag _]]; [|exact Hflag].
  vm_compute in Hl. discriminate Hl.
Defined.

Lemma lost_key_is_recovered_sample :
  exists p' l,
    App.handleGenerateVideo string (flaky notFound) (Some keyedStudio) 2
      pageWithImage = (p', Returned tt, l) /\
    App.error string (App.ui string p') = Some App.keyIssueMessage /\
    App.opened string p' = 1.
Proof.
  destruct (proj1 (lost_key_is_recovered string (flaky notFound) pngRequest 2
                     notFound "Requested entity was not found." 2 pngDataUrl
                     pageWithImage (flaky_fails notFound) ltac:(lia)
                     eq_refl eq_refl eq_refl eq_refl)
              keyedStudio eq_refl eq_refl)
    as (p' & l & Hrun & Herr & Hopened & _).
  exists p', l. split; [exact Hrun|]. split; [exact Herr|exact Hopened].
Defined.

Lemma analysis_handler_is_silent_sample :
  App.error string
    (App.ui string
       (fst (fst (App.handleAnalyze string (refusingStudio notFound)
                    pageWithFile)))) = None.
Proof.
  exact (proj1 (analysis_handler_is_silent string (refusingStudio notFound)
                  pageWithFile
                  (fst (fst (App.handleAnalyze string (refusingStudio notFound)
                               pageWithFile)))
                  (snd (fst (App.handleAnalyze string (refusingStudio notFound)
                               pageWithFile)))
                  (snd (App.handleAnalyze string (refusingStudio notFound)
                          pageWithFile))
                  eq_refl)).
Defined.

Lemma generate_handler_shows_the_image_sample :
  exists p',
    fst (fst (App.handleGenerate string painter None pageWithFile)) = p' /\
    App.status string (App.ui string p') = App.SUCCESS /\
    App.generatedImageUrl string (App.ui string p') =
      Some "data:image/jpeg;base64,QUJD".
Proof.
  destruct (generate_handler_shows_the_image string painter None pageWithFile
              pngFile _ "data:image/jpeg;base64,QUJD" eq_refl eq_refl eq_refl)
    as (p' & Hrun & Hstatus & Hurl & _).
  exists p'. rewrite Hrun. split; [reflexivity|].
  split; [exact Hstatus|exact Hurl].
Defined.

Lemma high_resolution_needs_a_key_sample :
  snd (App.handleGenerate string painter (Some closedStudio) pageAt2K) = [].
Proof.
  rewrite (high_resolution_needs_a_key string painter closedStudio pageAt2K
             pngFile dismissed eq_refl ltac:(discriminate) eq_refl eq_refl).
  reflexivity.
Defined.

Lemma pageAt2K_starts :
  App.runStarts string (Some lockedStudio) pageAt2K pageAt2K.
Proof.
  right. split; [vm_compute; discriminate|vm_compute; reflexivity].
Qed.

Lemma rejected_dialog_leaves_page_processing_sample :
  exists p',
    fst (fst (App.handleGenerate string (refusingStudio notFound)
                (Some lockedStudio) pageAt2K)) = p' /\
    App.status string (App.ui string p') = App.PROCESSING /\
    App.error string (App.ui string p') = None.
Proof.
  destruct (rejected_dialog_leaves_page_processing string
              (refusingStudio notFound) lockedStudio pageAt2K pageAt2K pngFile
              _ _ dismissed "Requested entity was not found."
              eq_refl pageAt2K_starts eq_refl eq_refl eq_refl eq_refl)
    as (p' & Hrun & Hstatus & Herr & _).
  exists p'. rewrite Hrun. split; [reflexivity|].
  split; [exact Hstatus|exact Herr].
Defined.

Lemma analysis_resolves_when_every_step_does_sample :
  snd (Image.analyzeStyleConsistency string painter pngFile pngDataUrl) =
  Returned "{}".
Proof.
  apply (proj2 (analysis_resolves_when_every_step_does string painter pngFile
                  pngDataUrl "{}")).
  exists "data:image/png;base64,iVBORw0KGgo=", (Some "iVBORw0KGgo="),
    "image/png",
    {| Image.candidates :=
         Some [ {| Image.content :=
                     Some {| Image.parts := Some [textPart; jpegPart] |} |} ];
       Image.responseText := Some "{}" |},
    "{}".
  repeat split; reflexivity.
Defined.

(** * The result and the errors at the caller *)

Section AtTheCaller.

Variable env : Provider.

(** The download of lines 298-303 under the [catch] block, case by case. *)
Lemma download_outcomes (videoUri : string) (w : World) :
  tryCatch (generateTurnaroundVideo_download env videoUri) handler w =
  match fetch env (downloadUrl env videoUri) with
  | inl e =>
      ({| polls := polls w;
          log := log w ++ [EvFetch (downloadUrl env videoUri);
                           EvConsoleError e] |},
       Thrown (newError (orElse (message e) "Failed to generate video.")))
  | inr r =>
      if ok r then
        match blob r with
        | inr b =>
            ({| polls := polls w;
                log := log w ++ [EvFetch (downloadUrl env videoUri); EvBlob;
                                 EvCreateObjectURL b] |},
             Returned (createObjectURL env b))
        | inl e =>
            ({| polls := polls w;
                log := log w ++ [EvFetch (downloadUrl env videoUri); EvBlob;
                                 EvConsoleError e] |},
             Thrown (newError (orElse (message e) "Failed to generate video.")))
        end
      else
        ({| polls := polls w;
            log := log w ++
                   [EvFetch (downloadUrl env videoUri);
                    EvConsoleError
                      (newError
                         ("Failed to download video: " ++ statusText r)%string)]
         |},
         Thrown (newError ("Failed to download video: " ++ statusText r)%string))
  end.
Proof.
  unfold tryCatch, generateTurnaroundVideo_download, handler, bind,
    callFetch, callBlob, callCreateObjectURL, consoleError, emit, record,
    throw.
  simpl.
  destruct (fetch env (downloadUrl env videoUri)) as [e|r]; simpl.
  - now rewrite <- app_assoc.
  - destruct (ok r); simpl.
    + destruct (blob r) as [e|b]; simpl; now rewrite <- !app_assoc.
    + now rewrite <- app_assoc.
Qed.

Lemma downloadUrl_with_key (key videoUri : string) :
  truthy (API_KEY env) = Some key ->
  downloadUrl env videoUri = (videoUri ++ "&key=" ++ key)%string.
Proof.
  intros Hkey. destruct (truthy_idem _ _ Hkey) as (Hk & _).
  unfold downloadUrl. now rewrite Hk.
Qed.

End AtTheCaller.

Lemma refusedAfterPolling_completes :
  completesOn refusedAfterPolling pngRequest 2 (finishedOperation "X").
Proof.
  split; [|split; reflexivity].
  intros i Hi. exists pendingOperation.
  destruct i as [|[|i]]; [split; reflexivity..|lia].
Qed.

(** C2, as the claim states it, fails on the code.  In the scenario the
    second status query returns the job done with the result [X]; the
    function does not resolve with [X] but with the object URL of the
    bytes it downloaded, and when that download is refused it does not
    resolve at all, although the job carried its result. *)
Lemma result_is_not_what_resolves :
  completesOn scenario pngRequest 2 (finishedOperation "X") /\
  truthy (videoUriOf (finishedOperation "X")) = Some "X" /\
  snd (generateTurnaroundVideo scenario 2 pngDataUrl start) =
    Returned "blob:mp4-bytes" /\
  "blob:mp4-bytes" <> "X" /\
  completesOn refusedAfterPolling pngRequest 2 (finishedOperation "X") /\
  snd (generateTurnaroundVideo refusedAfterPolling 2 pngDataUrl start) =
    Thrown (newError "Failed to download video: Forbidden").
Proof.
  split; [exact scenario_completes|].
  split; [reflexivity|].
  split; [reflexivity|].
  split; [discriminate|].
  split; [exact refusedAfterPolling_completes|reflexivity].
Qed.

(** C2, amended.  As soon as a status query returns the job done with a
    usable result handle [X] (query [N], the first to report done), the
    poller queries no more: the polling ends with [X] in hand, its last
    event being the query that returned the finished job, and the next
    thing the function does is fetch exactly [X] followed by [&key=] and
    the API key.  It resolves with the object URL of the downloaded bytes
    when that reply is ok and its body can be read; it fails with
    [Failed to download video:] and the status text when the reply is not
    ok, and with the message of the error when the fetch or the reading
    of the body raises. *)
Theorem finished_job_is_downloaded
  (env : Provider) (req : VideoRequest) (N : nat) (final : Operation)
  (X key : string) (fuel : nat) (imageDataUrl : string) :
  1 <= N ->
  completesOn env req N final ->
  truthy (videoUriOf final) = Some X ->
  truthy (API_KEY env) = Some key ->
  N <= fuel ->
  videoRequest imageDataUrl = inr req ->
  exists ops,
    length ops = N /\
    generateTurnaroundVideo_poll env fuel req start =
      ({| polls := N; log := pollingLog req ops |}, Returned X) /\
    (exists before o,
       pollingLog req ops = before ++ [EvGetVideosOperation o] /\
       getVideosOperation env (N - 1) o = inr final) /\
    statusFetches
      (log (fst (generateTurnaroundVideo env fuel imageDataUrl start))) = N /\
    generateTurnaroundVideo env fuel imageDataUrl start =
    match fetch env (X ++ "&key=" ++ key)%string with
    | inl e =>
        ({| polls := N;
            log := pollingLog req ops ++
                   [EvFetch (X ++ "&key=" ++ key)%string; EvConsoleError e] |},
         Thrown (newError (orElse (message e) "Failed to generate video.")))
    | inr r =>
        if ok r then
          match blob r with
          | inr b =>
              ({| polls := N;
                  log := pollingLog req ops ++
                         [EvFetch (X ++ "&key=" ++ key)%string; EvBlob;
                          EvCreateObjectURL b] |},
               Returned (createObjectURL env b))
          | inl e =>
              ({| polls := N;
                  log := pollingLog req ops ++
                         [EvFetch (X ++ "&key=" ++ key)%string; EvBlob;
                          EvConsoleError e] |},
               Thrown
                 (newError (orElse (message e) "Failed to generate video.")))
          end
        else
          ({| polls := N;
              log := pollingLog req ops ++
                     [EvFetch (X ++ "&key=" ++ key)%string;
                      EvConsoleError
                        (newError
                           ("Failed to download video: " ++ statusText r)%string)]
           |},
           Thrown
             (newError ("Failed to download video: " ++ statusText r)%string))
    end.
Proof.
  intros HN Hdone HX Hkey Hfuel Hreq.
  destruct (poll_completes env req N final fuel Hdone Hfuel)
    as (ops & Hlen & Hnth & Hrun).
  assert (Hstage : generateTurnaroundVideo_poll env fuel req start =
                   ({| polls := N; log := pollingLog req ops |}, Returned X)).
  { rewrite Hrun. unfold extractVideoUri. now rewrite HX. }
  assert (Hfn : generateTurnaroundVideo env fuel imageDataUrl start =
                tryCatch (generateTurnaroundVideo_download env X) handler
                  {| polls := N; log := pollingLog req ops |}).
  { now rewrite (generateTurnaroundVideo_run env fuel _ req Hreq), Hstage. }
  exists ops. split; [exact Hlen|]. split; [exact Hstage|].
  split.
  { destruct (exists_last (l := ops)) as (ops' & o & ->).
    { intros ->. simpl in Hlen. lia. }
    rewrite length_app in Hlen. simpl in Hlen.
    exists (pollingLog req ops' ++ [EvSleep pollIntervalMs]), o.
    split.
    - unfold pollingLog. rewrite flat_map_app. simpl.
      rewrite <- !app_assoc. reflexivity.
    - destruct Hdone as (_ & Hfin & _).
      replace N with (S (length ops')) in Hfin by lia.
      rewrite jobAfter_S in Hfin.
      rewrite (Hnth (length ops')) in Hfin by lia.
      rewrite nth_middle in Hfin.
      replace (N - 1) with (length ops') by lia. exact Hfin. }
  rewrite Hfn, download_outcomes, (downloadUrl_with_key env key X Hkey).
  cbn [polls log].
  split; [|reflexivity].
  destruct (fetch env (X ++ "&key=" ++ key)%string) as [e|r];
    [|destruct (ok r); [destruct (blob r)|]];
    cbn [fst log]; rewrite statusFetches_app, statusFetches_pollingLog, Hlen;
    change (statusFetches _) with 0 at 1; lia.
Qed.

Lemma finished_job_is_downloaded_scenario :
  snd (generateTurnaroundVideo scenario 2 pngDataUrl start) =
    Returned "blob:mp4-bytes" /\
  In (EvFetch "X&key=KEY")
    (log (fst (generateTurnaroundVideo scenario 2 pngDataUrl start))) /\
  statusFetches
    (log (fst (generateTurnaroundVideo scenario 2 pngDataUrl start))) = 2.
Proof.
  destruct (finished_job_is_downloaded scenario pngRequest 2
              (finishedOperation "X") "X" "KEY" 2 pngDataUrl
              ltac:(lia) scenario_completes eq_refl eq_refl ltac:(lia) eq_refl)
    as (ops & _ & _ & _ & Hn & Hfn).
  split; [rewrite Hfn; reflexivity|].
  split; [|exact Hn].
  rewrite Hfn. cbn [fetch scenario ok okDownload blob fst log].
  apply in_or_app. right. left. reflexivity.
Defined.



Section Causes.

Variable env : Provider.



End Causes.


